(** * markitdown_converter.py: a shallow embedding

    The script [scripts/markitdown_converter.py] is a thin command-line
    wrapper around the MarkItDown library.  Its three functions
    ([check_markitdown_installed], [convert_file], [convert_bytes]) and
    its entry point [main] are embedded below as computations in a small
    state-and-exception monad:

    - the state is the file system (a finite map from paths to contents)
      and, for [main], the two output streams;
    - a Python exception is a value of type [exn]; [try]/[except Exception]
      and [try]/[finally] are combinators with Python's semantics;
    - the MarkItDown library and the operating system's answers (names
      drawn by [tempfile], failing system calls) are fields of an
      environment record [Env], so every statement is about all libraries
      and all operating-system behaviours at once.

    A Python [str] is a Rocq string holding its UTF-8 encoding: the
    separators ['/'] and ['.'] are single bytes that occur in no other
    character, so splitting and slicing at them agree with Python's.
    The builtins [str.lower] and [repr], which depend on the Unicode
    tables, are fields of [Env] as well. *)

From Stdlib Require Import ZArith Ascii String List Bool Lia.
From stdpp Require Import base gmap strings pretty.
Import ListNotations.

Local Open Scope string_scope.
Local Open Scope Z_scope.

(** ** Python strings *)

Module PyStr.

(** [s.startswith(p)] *)
Fixpoint startswith (p s : string) : bool :=
  match p, s with
  | EmptyString, _ => true
  | String _ _, EmptyString => false
  | String a p', String b s' => Ascii.eqb a b && startswith p' s'
  end.

(** [s.rfind(c)] for a one-character [c]: the highest index of [c], or -1. *)
Fixpoint rfind_from (c : ascii) (s : string) (i last : Z) : Z :=
  match s with
  | EmptyString => last
  | String d r => rfind_from c r (i + 1) (if Ascii.eqb d c then i else last)
  end.

Definition rfind (c : ascii) (s : string) : Z := rfind_from c s 0 (-1).

Definition len (s : string) : Z := Z.of_nat (String.length s).

(** [s[i:]] for [0 <= i]. *)
Definition slice_from (i : Z) (s : string) : string :=
  String.substring (Z.to_nat i) (String.length s - Z.to_nat i) s.

(** [s.split(c)] for a one-character separator: never the empty list. *)
Fixpoint split (c : ascii) (s : string) : list string :=
  match s with
  | EmptyString => [EmptyString]
  | String d r =>
      if Ascii.eqb d c then EmptyString :: split c r
      else match split c r with
           | [] => [String d EmptyString]
           | w :: ws => String d w :: ws
           end
  end.

Definition lower_ascii (c : ascii) : ascii :=
  let n := N_of_ascii c in
  if ((65 <=? n) && (n <=? 90))%N then ascii_of_N (n + 32) else c.

(** What [s.lower()] is for text whose letters are all ASCII; the sample
    environments take it for their [str_lower]. *)
Fixpoint ascii_lower (s : string) : string :=
  match s with
  | EmptyString => EmptyString
  | String c r => String (lower_ascii c) (ascii_lower r)
  end.

Fixpoint contains (c : ascii) (s : string) : bool :=
  match s with
  | EmptyString => false
  | String d r => Ascii.eqb d c || contains c r
  end.

Definition hex_digit (n : N) : ascii :=
  if (n <? 10)%N then ascii_of_N (48 + n) else ascii_of_N (87 + n).

(** One character inside [repr(s)], within the quote [q]. *)
Definition repr_char (q c : ascii) : string :=
  let n := N_of_ascii c in
  if (n =? 92)%N then String c (String c EmptyString)
  else if Ascii.eqb c q then String (ascii_of_N 92) (String c EmptyString)
  else if (n =? 9)%N then String (ascii_of_N 92) "t"
  else if (n =? 10)%N then String (ascii_of_N 92) "n"
  else if (n =? 13)%N then String (ascii_of_N 92) "r"
  else if ((n <? 32) || (n =? 127))%N then
    String (ascii_of_N 92)
      (String "x" (String (hex_digit (n / 16)) (String (hex_digit (n mod 16))
         EmptyString)))
  else String c EmptyString.

Fixpoint repr_body (q : ascii) (s : string) : string :=
  match s with
  | EmptyString => EmptyString
  | String c r => String.append (repr_char q c) (repr_body q r)
  end.

(** What [repr(s)] is for text whose characters outside ASCII are all
    printable: apostrophes around it, or double quotes when it holds an
    apostrophe and no double quote; backslash, the quote and control
    characters escaped.  The sample environments take it for their
    [py_repr]. *)
Definition ascii_repr (s : string) : string :=
  let q := if contains (ascii_of_N 39) s && negb (contains (ascii_of_N 34) s)
           then ascii_of_N 34 else ascii_of_N 39 in
  String q (String.append (repr_body q s) (String q EmptyString)).

Definition is_empty (s : string) : bool :=
  match s with EmptyString => true | String _ _ => false end.

End PyStr.

(** ** [os.path] and [pathlib] (POSIX flavour) *)

Module PyPath.

(** [posixpath.basename]: [i = p.rfind('/') + 1; return p[i:]]. *)
Definition basename (p : string) : string :=
  PyStr.slice_from (PyStr.rfind "/" p + 1) p.

(** The tail parts of [pathlib.PurePosixPath(p)]: the components of [p]
    between separators, without the empty ones and without ["."]. *)
Definition parts (p : string) : list string :=
  filter (fun x => negb (PyStr.is_empty x) && negb (String.eqb x "."))
         (PyStr.split "/" p).

(** [PurePath.name]: the last part, or the empty string. *)
Definition name (p : string) : string := List.last (parts p) "".

(** [PurePath.suffix], as up to CPython 3.13:
    [i = name.rfind('.'); name[i:] if 0 < i < len(name) - 1 else '']. *)
Definition suffix (p : string) : string :=
  let n := name p in
  let i := PyStr.rfind "." n in
  if (0 <? i) && (i <? PyStr.len n - 1) then PyStr.slice_from i n else "".

End PyPath.

(** ** Python exceptions and effects *)

(** What a [raise] can carry.  The constructor says where the class of
    the exception sits in the hierarchy, which is all an [except] clause
    looks at: [PyImportError] stands for every instance of [ImportError],
    of the class itself or of any class derived from it
    ([ModuleNotFoundError], [zipimport.ZipImportError], ...);
    [PyException] for every other instance of [Exception]; [SystemExit]
    and [KeyboardInterrupt] derive from [BaseException] only.  [cls] is
    the name of the class, kept for reading, and [msg] is [str(e)]. *)
Inductive exn : Type :=
| PyException (cls msg : string)
| PyImportError (cls msg : string)
| SystemExit (code : Z)
| KeyboardInterrupt.

(** [isinstance(e, Exception)] *)
Definition isinstance_Exception (e : exn) : bool :=
  match e with
  | PyException _ _ | PyImportError _ _ => true
  | SystemExit _ | KeyboardInterrupt => false
  end.

(** [isinstance(e, ImportError)] *)
Definition isinstance_ImportError (e : exn) : bool :=
  match e with
  | PyImportError _ _ => true
  | PyException _ _ | SystemExit _ | KeyboardInterrupt => false
  end.

(** [str(e)] *)
Definition str_exn (e : exn) : string :=
  match e with
  | PyException _ msg | PyImportError _ msg => msg
  | SystemExit code => pretty code
  | KeyboardInterrupt => ""
  end.

(** The outcome of evaluating a Python expression or block. *)
Inductive res (A : Type) : Type :=
| Ret (a : A)
| Raise (e : exn).
Arguments Ret {A} a.
Arguments Raise {A} e.

(** A computation over a state [S]: the outcome and the state it leaves. *)
Definition M (S A : Type) : Type := S -> res A * S.

Definition ret {S A} (a : A) : M S A := fun s => (Ret a, s).

Definition raise {S A} (e : exn) : M S A := fun s => (Raise e, s).

Definition bind {S A B} (c : M S A) (k : A -> M S B) : M S B :=
  fun s =>
    match c s with
    | (Ret a, s') => k a s'
    | (Raise e, s') => (Raise e, s')
    end.

Declare Scope py_scope.
Delimit Scope py_scope with py.
Notation "x <- c ;; k" := (bind c (fun x => k))
  (at level 100, c at next level, right associativity) : py_scope.
Notation "c ;;; k" := (bind c (fun _ => k))
  (at level 100, right associativity) : py_scope.
Local Open Scope py_scope.

(** [try: body / except Exception as e: handler e].  An exception that is
    not an instance of [Exception] passes through. *)
Definition try_except_Exception {S A}
    (body : M S A) (handler : exn -> M S A) : M S A :=
  fun s =>
    match body s with
    | (Ret a, s') => (Ret a, s')
    | (Raise e, s') =>
        if isinstance_Exception e then handler e s' else (Raise e, s')
    end.

(** [try: body / finally: cleanup].  The cleanup runs on every outcome of
    the body, a [return] included; when the cleanup itself raises, its
    exception replaces the body's outcome. *)
Definition try_finally {S A} (body : M S A) (cleanup : M S unit) : M S A :=
  fun s =>
    match body s with
    | (r, s1) =>
        match cleanup s1 with
        | (Ret _, s2) => (r, s2)
        | (Raise e, s2) => (Raise e, s2)
        end
    end.

(** ** Values and dictionaries *)

(** The values the script stores in its result dictionaries. *)
Inductive pyval : Type :=
| PNone
| PBool (b : bool)
| PStr (s : string).

(** A Python [dict] with string keys, in insertion order. *)
Definition dict : Type := list (string * pyval).

Fixpoint dict_get (k : string) (d : dict) : option pyval :=
  match d with
  | [] => None
  | (k', v) :: d' => if String.eqb k k' then Some v else dict_get k d'
  end.

Definition dict_keys (d : dict) : list string := map fst d.

(** [d[k]], a [KeyError] when the key is absent. *)
Definition dict_item {S} (d : dict) (k : string) : M S pyval :=
  match dict_get k d with
  | Some v => ret v
  | None => raise (PyException "KeyError" k)
  end.

(** Truth value of a value, as [if v:] tests it. *)
Definition truthy (v : pyval) : bool :=
  match v with
  | PNone => false
  | PBool b => b
  | PStr s => negb (PyStr.is_empty s)
  end.

(** How an f-string or [print] renders a value. *)
Definition format_val (v : pyval) : string :=
  match v with
  | PNone => "None"
  | PBool true => "True"
  | PBool false => "False"
  | PStr s => s
  end.

(** ** The file system and the environment *)

(** Existing paths with their contents. *)
Abbreviation fs := (gmap string (list Byte.byte)).

(** The [markitdown] package, as far as the script uses it. *)
Record MarkItDownLib : Type := {
  (** [MarkItDown(enable_plugins=b)] *)
  md_new : bool -> M fs unit;
  (** [md.convert(path).text_content] on an instance built with [b] *)
  md_convert : bool -> string -> M fs string;
}.

(** Everything the script obtains from outside itself. *)
Record Env : Type := {
  (** outcome of [from markitdown import MarkItDown] *)
  import_markitdown : res MarkItDownLib;
  (** [tempfile.gettempdir()] *)
  tempdir : string;
  (** the random names [tempfile] draws, in order (at most [TMP_MAX]) *)
  temp_names : list string;
  (** error of creating a new file at a free path, if any *)
  os_open_fault : string -> option exn;
  (** error of writing the given bytes to an open file, if any *)
  os_write_fault : string -> list Byte.byte -> option exn;
  (** how many of the bytes had reached the file when that error came *)
  os_write_done : string -> list Byte.byte -> nat;
  (** error of [open(path, "w")], if any *)
  open_w_fault : string -> option exn;
  (** the program name [argparse] prints *)
  prog : string;
  (** the builtin [str.lower] *)
  str_lower : string -> string;
  (** the builtin [repr] on strings *)
  py_repr : string -> string;
}.

(** [os.path.exists(path)] *)
Definition os_path_exists (path : string) : M fs bool :=
  fun s => (Ret (bool_decide (is_Some (s !! path))), s).

(** [str(e)] of the [FileNotFoundError] a system call raises for [path]:
    the file name is shown by [repr]. *)
Definition unlink_message (E : Env) (path : string) : string :=
  "[Errno 2] No such file or directory: " +:+ py_repr E path.

(** [os.unlink(path)] *)
Definition os_unlink (E : Env) (path : string) : M fs unit :=
  fun s =>
    match s !! path with
    | Some _ => (Ret tt, delete path s)
    | None =>
        (Raise (PyException "FileNotFoundError" (unlink_message E path)), s)
    end.

(** The loop of [tempfile._mkstemp_inner]: a name that exists already is
    skipped, any other error of the create call is raised, and running out
    of names raises [FileExistsError]. *)
Fixpoint mkstemp_inner (E : Env) (names : list string) (suffix : string)
    : M fs string :=
  match names with
  | [] =>
      raise (PyException "FileExistsError"
               "[Errno 17] No usable temporary file name found")
  | n :: rest =>
      fun s =>
        let file := tempdir E +:+ "/tmp" +:+ n +:+ suffix in
        match s !! file with
        | Some _ => mkstemp_inner E rest suffix s
        | None =>
            match os_open_fault E file with
            | Some e => (Raise e, s)
            | None => (Ret file, <[file := []]> s)
            end
        end
  end.

(** [tempfile.NamedTemporaryFile(suffix=suffix, delete=False)]: the name
    of the new, empty file. *)
Definition NamedTemporaryFile (E : Env) (suffix : string) : M fs string :=
  mkstemp_inner E (temp_names E) suffix.

(** [f.write(content)] on the file named [f], which was just created or
    truncated, together with the flush that closing the file performs:
    the bytes reach the file, or the error is raised with the file
    holding the bytes written before it, a prefix of [content]. *)
Definition file_write (E : Env) (f : string) (content : list Byte.byte)
    : M fs unit :=
  fun s =>
    match os_write_fault E f content with
    | Some e => (Raise e, <[f := take (os_write_done E f content) content]> s)
    | None => (Ret tt, <[f := content]> s)
    end.

(** [with NamedTemporaryFile(suffix=..., delete=False) as f: body f].
    Leaving the block closes the file; with [delete=False] closing removes
    nothing, whether the body returned or raised. *)
Definition with_NamedTemporaryFile {A} (E : Env) (suffix : string)
    (body : string -> M fs A) : M fs A :=
  f <- NamedTemporaryFile E suffix ;; body f.

(** ** The conversion functions *)

Definition import_MarkItDown {S} (E : Env) : M S MarkItDownLib :=
  fun s => (import_markitdown E, s).

(** [check_markitdown_installed] (lines 42-48) *)
Definition check_markitdown_installed {S} (E : Env) : M S bool :=
  match import_markitdown E with
  | Ret _ => ret true
  | Raise e => if isinstance_ImportError e then ret false else raise e
  end.

(** [convert_file] (lines 51-98) *)
Definition convert_file (E : Env) (file_path : string) (enable_plugins : bool)
    : M fs dict :=
  MarkItDown <- import_MarkItDown E ;;
  found <- os_path_exists file_path ;;
  if negb found then
    ret [ ("success", PBool false);
          ("error", PStr ("File not found: " +:+ file_path));
          ("markdown", PNone);
          ("file_path", PStr file_path) ]
  else
    try_except_Exception
      ( md_new MarkItDown enable_plugins ;;;
        text_content <- md_convert MarkItDown enable_plugins file_path ;;
        ret [ ("success", PBool true);
              ("error", PNone);
              ("markdown", PStr text_content);
              ("file_path", PStr file_path);
              ("file_name", PStr (PyPath.basename file_path));
              ("file_extension", PStr (str_lower E (PyPath.suffix file_path))) ] )
      (fun e =>
        ret [ ("success", PBool false);
              ("error", PStr (str_exn e));
              ("markdown", PNone);
              ("file_path", PStr file_path) ]).

(** Lines 120-122: the extension always starts with a dot. *)
Definition normalize_extension (file_extension : string) : string :=
  if negb (PyStr.startswith "." file_extension)
  then "." +:+ file_extension
  else file_extension.

(** [convert_bytes] (lines 101-153) *)
Definition convert_bytes (E : Env) (content : list Byte.byte)
    (file_extension : string) (enable_plugins : bool) : M fs dict :=
  MarkItDown <- import_MarkItDown E ;;
  let file_extension := normalize_extension file_extension in
  try_except_Exception
    ( temp_path <-
        with_NamedTemporaryFile E file_extension
          (fun f => file_write E f content ;;; ret f) ;;
      try_finally
        ( md_new MarkItDown enable_plugins ;;;
          text_content <- md_convert MarkItDown enable_plugins temp_path ;;
          ret [ ("success", PBool true);
                ("error", PNone);
                ("markdown", PStr text_content);
                ("file_extension", PStr file_extension) ] )
        ( os_unlink E temp_path ) )
    (fun e =>
      ret [ ("success", PBool false);
            ("error", PStr (str_exn e));
            ("markdown", PNone);
            ("file_extension", PStr file_extension) ]).

(** ** The command line *)

(** The [Namespace] that [parser.parse_args()] returns. *)
Record Namespace : Type := {
  args_file_path : option string;
  args_output : option string;
  args_json : bool;
  args_enable_plugins : bool;
  args_check : bool;
}.

(** What was printed: a line of text, or the dictionary handed to
    [json.dumps] together with its [ensure_ascii] flag. *)
Inductive out_item : Type :=
| Text (s : string)
| Json (ensure_ascii : bool) (d : dict).

Record World : Type := {
  files : fs;
  stdout : list out_item;
  stderr : list string;
}.

Definition lift_fs {A} (c : M fs A) : M World A :=
  fun w =>
    match c (files w) with
    | (r, s') => (r, {| files := s'; stdout := stdout w; stderr := stderr w |})
    end.

(** [print(x)] *)
Definition print (x : out_item) : M World unit :=
  fun w =>
    (Ret tt, {| files := files w; stdout := stdout w ++ [x]; stderr := stderr w |}).

(** [print(x, file=sys.stderr)] *)
Definition print_stderr (x : string) : M World unit :=
  fun w =>
    (Ret tt, {| files := files w; stdout := stdout w; stderr := stderr w ++ [x] |}).

(** [sys.exit(code)] *)
Definition sys_exit {S A} (code : Z) : M S A := raise (SystemExit code).

Definition usage (E : Env) : string :=
  "usage: " +:+ prog E
  +:+ " [-h] [--output OUTPUT] [--json] [--enable-plugins] [--check] [file_path]".

(** [parser.error(message)]: the usage line and the message go to the
    error stream, and the process exits with status 2. *)
Definition parser_error {A} (E : Env) (message : string) : M World A :=
  print_stderr (usage E) ;;;
  print_stderr (prog E +:+ ": error: " +:+ message) ;;;
  sys_exit 2.

(** [with open(path, "w", encoding="utf-8") as f: f.write(text)] *)
Definition write_text (E : Env) (path : string) (text : pyval) : M World unit :=
  lift_fs (fun s =>
    match open_w_fault E path with
    | Some e => (Raise e, s)
    | None =>
        match text with
        | PStr t => file_write E path (list_byte_of_string t) (<[path := []]> s)
        | _ => (Raise (PyException "TypeError" "write() argument must be str"),
                <[path := []]> s)
        end
    end).

(** Truth value of an optional command-line string. *)
Definition given (o : option string) : bool :=
  match o with
  | None => false
  | Some s => negb (PyStr.is_empty s)
  end.

Definition not_installed_message : string :=
  "markitdown not installed. Run: pip install markitdown".

(** [main] (lines 156-236), after [parse_args] has produced [args]. *)
Definition main (E : Env) (args : Namespace) : M World unit :=
  (if args_check args then
     installed <- check_markitdown_installed E ;;
     if installed then
       print (Json true [("installed", PBool true)]) ;;; sys_exit 0
     else
       print (Json true [("installed", PBool false);
                         ("error", PStr not_installed_message)]) ;;;
       sys_exit 1
   else ret tt) ;;;
  (if negb (given (args_file_path args)) then
     parser_error E
       "file_path is required for conversion (use --check to verify installation)"
   else ret tt) ;;;
  installed <- check_markitdown_installed E ;;
  (if negb installed then
     let error_result :=
       [ ("success", PBool false);
         ("error", PStr not_installed_message);
         ("markdown", PNone) ] in
     (if args_json args then print (Json true error_result)
      else
        err <- dict_item error_result "error" ;;
        print_stderr ("Error: " +:+ format_val err)) ;;;
     sys_exit 1
   else ret tt) ;;;
  result <- lift_fs (convert_file E (default "" (args_file_path args))
                       (args_enable_plugins args)) ;;
  if args_json args then print (Json false result)
  else
    ok <- dict_item result "success" ;;
    if truthy ok then
      if given (args_output args) then
        markdown <- dict_item result "markdown" ;;
        write_text E (default "" (args_output args)) markdown ;;;
        print (Text ("Converted successfully: " +:+ default "" (args_output args)))
      else
        markdown <- dict_item result "markdown" ;;
        print (Text (format_val markdown))
    else
      err <- dict_item result "error" ;;
      print_stderr ("Error: " +:+ format_val err) ;;;
      sys_exit 1.

(** The exit status of the interpreter: 0 when [main] returns, the code
    of a [SystemExit], and a failure status for an uncaught exception. *)
Definition exit_status (r : res unit) : Z :=
  match r with
  | Ret _ => 0
  | Raise (SystemExit code) => code
  | Raise KeyboardInterrupt => 130
  | Raise (PyException _ _) | Raise (PyImportError _ _) => 1
  end.

(** Running the script: exit status and final world. *)
Definition run (E : Env) (args : Namespace) (w : World) : Z * World :=
  match main E args w with
  | (r, w') => (exit_status r, w')
  end.

(** ** Sample libraries, environments and inputs *)

Module Samples.

(** A converter that renders the bytes of the file behind a heading. *)
Definition lib_ok : MarkItDownLib := {|
  md_new := fun _ => ret tt;
  md_convert := fun _ path s =>
    match s !! path with
    | Some c => (Ret ("# " +:+ string_of_list_byte c), s)
    | None => (Raise (PyException "FileNotFoundError" path), s)
    end |}.

(** A converter whose [convert] always raises [e]. *)
Definition lib_raising (e : exn) : MarkItDownLib := {|
  md_new := fun _ => ret tt;
  md_convert := fun _ _ => raise e |}.

Definition env_with (imported : res MarkItDownLib) : Env := {|
  import_markitdown := imported;
  tempdir := "/tmp";
  temp_names := ["abcd1234"; "efgh5678"];
  os_open_fault := fun _ => None;
  os_write_fault := fun _ _ => None;
  os_write_done := fun _ _ => 0%nat;
  open_w_fault := fun _ => None;
  prog := "markitdown_converter.py";
  str_lower := PyStr.ascii_lower;
  py_repr := PyStr.ascii_repr |}.

(** The library is installed and works. *)
Definition env_ok : Env := env_with (Ret lib_ok).

(** The library is not installed. *)
Definition no_module : exn :=
  PyImportError "ModuleNotFoundError" "No module named 'markitdown'".

Definition env_missing : Env := env_with (Raise no_module).

(** The user interrupts the conversion. *)
Definition env_interrupted : Env := env_with (Ret (lib_raising KeyboardInterrupt)).

(** The volume of the temporary directory is full: a new empty file can
    be created, writing data to it fails. *)
Definition no_space : exn :=
  PyException "OSError" "[Errno 28] No space left on device".

Definition env_disk_full : Env := {|
  import_markitdown := Ret lib_ok;
  tempdir := "/tmp";
  temp_names := ["abcd1234"; "efgh5678"];
  os_open_fault := fun _ => None;
  os_write_fault := fun _ _ => Some no_space;
  os_write_done := fun _ _ => 0%nat;
  open_w_fault := fun _ => None;
  prog := "markitdown_converter.py";
  str_lower := PyStr.ascii_lower;
  py_repr := PyStr.ascii_repr |}.

Definition hello : list Byte.byte := list_byte_of_string "hi".

(** A file system with one document. *)
Definition fs_doc : fs := {[ "docs/Report.PDF" := hello ]}.

Definition world_doc : World := {| files := fs_doc; stdout := []; stderr := [] |}.

Definition cli (file_path output : option string) (json check : bool)
    : Namespace := {|
  args_file_path := file_path;
  args_output := output;
  args_json := json;
  args_enable_plugins := false;
  args_check := check |}.

End Samples.

(** ** Shapes of the result dictionaries *)

Definition failure_of_file (file_path message : string) : dict :=
  [ ("success", PBool false); ("error", PStr message);
    ("markdown", PNone); ("file_path", PStr file_path) ].

Definition success_of_file (E : Env) (file_path text : string) : dict :=
  [ ("success", PBool true); ("error", PNone); ("markdown", PStr text);
    ("file_path", PStr file_path);
    ("file_name", PStr (PyPath.basename file_path));
    ("file_extension", PStr (str_lower E (PyPath.suffix file_path))) ].

Definition failure_of_bytes (file_extension message : string) : dict :=
  [ ("success", PBool false); ("error", PStr message);
    ("markdown", PNone); ("file_extension", PStr file_extension) ].

Definition success_of_bytes (file_extension text : string) : dict :=
  [ ("success", PBool true); ("error", PNone); ("markdown", PStr text);
    ("file_extension", PStr file_extension) ].

(** The two calls that [convert_file] and [convert_bytes] delegate to the
    library, in sequence. *)
Definition converter_call (lib : MarkItDownLib) (enable_plugins : bool)
    (path : string) : M fs string :=
  md_new lib enable_plugins ;;; md_convert lib enable_plugins path.

(** The invariant of a ConversionResult: with [success] true the markdown
    is a string and the error is [None]; with [success] false the error
    is a string and the markdown is [None]. *)
Definition is_str (o : option pyval) : bool :=
  match o with Some (PStr _) => true | _ => false end.

Definition is_none (o : option pyval) : bool :=
  match o with Some PNone => true | _ => false end.

Definition result_invariant (d : dict) : bool :=
  match dict_get "success" d with
  | Some (PBool true) =>
      is_str (dict_get "markdown" d) && is_none (dict_get "error" d)
  | Some (PBool false) =>
      is_str (dict_get "error" d) && is_none (dict_get "markdown" d)
  | _ => false
  end.

(** The block of [convert_bytes] that runs once the temporary file has
    been written: conversion under [try]/[finally]. *)
Definition convert_temp (E : Env) (lib : MarkItDownLib) (ext : string)
    (b : bool)
    (temp_path : string) : M fs dict :=
  try_finally
    (text <- converter_call lib b temp_path ;; ret (success_of_bytes ext text))
    (os_unlink E temp_path).

(** A library that leaves the file system as it found it. *)
Definition read_only (lib : MarkItDownLib) : Prop :=
  (forall b s, snd (md_new lib b s) = s) /\
  (forall b p s, snd (md_convert lib b p s) = s).

(** The keys of a ConversionResult as the specification lists them:
    [success], [error], [markdown], then [file_path] or [file_extension],
    and optionally [file_name] with [file_extension]. *)
Definition same_keys (ks ks' : list string) : bool :=
  forallb (fun k => existsb (String.eqb k) ks') ks
  && forallb (fun k => existsb (String.eqb k) ks) ks'.

Definition documented_keys (ks : list string) : bool :=
  same_keys ks ["success"; "error"; "markdown"; "file_path"]
  || same_keys ks ["success"; "error"; "markdown"; "file_extension"]
  || same_keys ks ["success"; "error"; "markdown"; "file_path";
                   "file_name"; "file_extension"].

(** What [parser.error] leaves on the error stream for a missing path. *)
Definition usage_error_lines (E : Env) : list string :=
  [ usage E;
    prog E +:+ ": error: "
    +:+ "file_path is required for conversion (use --check to verify installation)" ].

(** A library whose calls raise instances of [Exception] only. *)
Definition raises_only_Exception (lib : MarkItDownLib) : Prop :=
  forall b p s e s',
    converter_call lib b p s = (Raise e, s') -> isinstance_Exception e = true.

(** The handler of [convert_bytes] (lines 147-153). *)
Definition bytes_handler (ext : string) (e : exn) : M fs dict :=
  ret (failure_of_bytes ext (str_exn e)).

(** Further libraries and environments. *)
Module Cases.

(** A converter that returns the same text for every file. *)
Definition lib_const (text : string) : MarkItDownLib := {|
  md_new := fun _ => ret tt;
  md_convert := fun _ _ => ret text |}.

(** A converter that removes the file it was given. *)
Definition lib_deleting : MarkItDownLib := {|
  md_new := fun _ => ret tt;
  md_convert := fun _ path s => (Ret "# gone", delete path s) |}.

Definition env_const : Env := Samples.env_with (Ret (lib_const "# text")).

Definition env_deleting : Env := Samples.env_with (Ret lib_deleting).

(** [tempfile] finds no usable name. *)
Definition env_no_names : Env := {|
  import_markitdown := Ret Samples.lib_ok;
  tempdir := "/tmp";
  temp_names := [];
  os_open_fault := fun _ => None;
  os_write_fault := fun _ _ => None;
  os_write_done := fun _ _ => 0%nat;
  open_w_fault := fun _ => None;
  prog := "markitdown_converter.py";
  str_lower := PyStr.ascii_lower;
  py_repr := PyStr.ascii_repr |}.

(** The package is there, and importing it fails in one of its own
    imports with something that is not an [ImportError]. *)
Definition broken_install : exn :=
  PyException "AttributeError" "module 'numpy' has no attribute 'float'".

Definition env_broken : Env := Samples.env_with (Raise broken_install).

(** The output file cannot be opened. *)
Definition denied : exn :=
  PyException "PermissionError" "[Errno 13] Permission denied: 'out.md'".

Definition env_denied : Env := {|
  import_markitdown := Ret Samples.lib_ok;
  tempdir := "/tmp";
  temp_names := ["abcd1234"];
  os_open_fault := fun _ => None;
  os_write_fault := fun _ _ => None;
  os_write_done := fun _ _ => 0%nat;
  open_w_fault := fun _ => Some denied;
  prog := "markitdown_converter.py";
  str_lower := PyStr.ascii_lower;
  py_repr := PyStr.ascii_repr |}.

(** The quota is reached after two bytes of a write. *)
Definition env_quota : Env := {|
  import_markitdown := Ret Samples.lib_ok;
  tempdir := "/tmp";
  temp_names := ["abcd1234"];
  os_open_fault := fun _ => None;
  os_write_fault := fun _ _ =>
    Some (PyException "OSError" "[Errno 122] Disk quota exceeded");
  os_write_done := fun _ _ => 2%nat;
  open_w_fault := fun _ => None;
  prog := "markitdown_converter.py";
  str_lower := PyStr.ascii_lower;
  py_repr := PyStr.ascii_repr |}.

(** A library of a zipped installation: its import error is of a class
    derived from [ImportError]. *)
Definition zip_error : exn :=
  PyImportError "ZipImportError" "can't decompress data; zlib not available".

Definition env_zipped : Env := Samples.env_with (Raise zip_error).

(** A file system with the document and an earlier output file. *)
Definition fs_out : fs := <["out.md" := list_byte_of_string "old"]> Samples.fs_doc.

Definition world_out : World := {| files := fs_out; stdout := []; stderr := [] |}.

End Cases.

(** The same command line with another [--output]. *)
Definition with_output (o : option string) (args : Namespace) : Namespace := {|
  args_file_path := args_file_path args;
  args_output := o;
  args_json := args_json args;
  args_enable_plugins := args_enable_plugins args;
  args_check := args_check args |}.

(** An environment in which whatever is raised, by the import, by the
    library or by a system call, is an instance of [Exception]. *)
Definition only_Exception_faults (E : Env) : Prop :=
  (forall e, import_markitdown E = Raise e -> isinstance_Exception e = true) /\
  (forall lib, import_markitdown E = Ret lib -> raises_only_Exception lib) /\
  (forall f e, os_open_fault E f = Some e -> isinstance_Exception e = true) /\
  (forall f c e, os_write_fault E f c = Some e -> isinstance_Exception e = true) /\
  (forall f e, open_w_fault E f = Some e -> isinstance_Exception e = true).

(** * Properties *)

(** ** Strings and paths *)

Lemma startswith_dot_cons (e : string) : PyStr.startswith "." ("." +:+ e) = true.
Proof. reflexivity. Qed.

Lemma normalize_extension_dotted (e : string) :
  PyStr.startswith "." (normalize_extension e) = true.
Proof.
  unfold normalize_extension.
  destruct (PyStr.startswith "." e) eqn:He; simpl; [exact He | reflexivity].
Qed.

Lemma normalize_extension_idempotent (e : string) :
  normalize_extension (normalize_extension e) = normalize_extension e.
Proof.
  unfold normalize_extension at 1.
  now rewrite normalize_extension_dotted.
Qed.

Example basename_report : PyPath.basename "docs/Report.PDF" = "Report.PDF".
Proof. reflexivity. Qed.

Example suffix_report : PyStr.ascii_lower (PyPath.suffix "docs/Report.PDF") = ".pdf".
Proof. reflexivity. Qed.

Example suffix_last_only : PyPath.suffix "backup/site.tar.GZ" = ".GZ".
Proof. reflexivity. Qed.

Example suffix_dotfile : PyPath.suffix "home/.bashrc" = "".
Proof. reflexivity. Qed.

Example suffix_trailing_dot : PyPath.suffix "notes/draft." = "".
Proof. reflexivity. Qed.

Example suffix_of_directory : PyPath.suffix "scans/2024.d/" = ".d".
Proof. reflexivity. Qed.

Example basename_of_directory : PyPath.basename "scans/2024.d/" = "".
Proof. reflexivity. Qed.

Example repr_plain : PyStr.ascii_repr "/tmp/a.pdf" = "'/tmp/a.pdf'".
Proof. reflexivity. Qed.

Example repr_apostrophe :
  PyStr.ascii_repr "/tmp/a.p'df"
    = String (ascii_of_N 34) ("/tmp/a.p'df" +:+ String (ascii_of_N 34) "").
Proof. reflexivity. Qed.

(** ** The existence test *)

Lemma os_path_exists_absent (path : string) (s : fs) :
  s !! path = None -> os_path_exists path s = (Ret false, s).
Proof.
  intros H. unfold os_path_exists.
  rewrite bool_decide_eq_false_2; [reflexivity |].
  rewrite H. apply is_Some_None.
Qed.

Lemma os_path_exists_present (path : string) (s : fs) :
  is_Some (s !! path) -> os_path_exists path s = (Ret true, s).
Proof.
  intros H. unfold os_path_exists.
  now rewrite bool_decide_eq_true_2.
Qed.

(** ** [convert_file] *)

Lemma convert_file_import_raises
    (E : Env) (e : exn) (path : string) (b : bool) (s : fs) :
  import_markitdown E = Raise e -> convert_file E path b s = (Raise e, s).
Proof.
  intros Himp. unfold convert_file, import_MarkItDown, bind.
  now rewrite Himp.
Qed.

Lemma convert_bytes_import_raises
    (E : Env) (e : exn) (content : list Byte.byte) (ext : string)
    (b : bool) (s : fs) :
  import_markitdown E = Raise e ->
  convert_bytes E content ext b s = (Raise e, s).
Proof.
  intros Himp. unfold convert_bytes, import_MarkItDown, bind.
  now rewrite Himp.
Qed.

(** C10. When [from markitdown import MarkItDown] raises, both
    [convert_file] and [convert_bytes] raise that same error to their
    caller and return no result at all: the import runs before the
    [try], so the handler never sees it, and nothing else has happened. *)
Theorem import_error_propagates
    (E : Env) (e : exn) (path : string) (content : list Byte.byte)
    (ext : string) (b : bool) (s : fs) :
  import_markitdown E = Raise e ->
  convert_file E path b s = (Raise e, s) /\
  convert_bytes E content ext b s = (Raise e, s).
Proof.
  intros Himp. split.
  - now apply convert_file_import_raises.
  - now apply convert_bytes_import_raises.
Qed.

Lemma import_error_propagates_witness :
  convert_file Samples.env_missing "docs/Report.PDF" false Samples.fs_doc
    = (Raise Samples.no_module, Samples.fs_doc) /\
  convert_bytes Samples.env_missing Samples.hello "pdf" false Samples.fs_doc
    = (Raise Samples.no_module, Samples.fs_doc).
Proof.
  apply (import_error_propagates Samples.env_missing Samples.no_module).
  reflexivity.
Defined.

Lemma convert_file_absent
    (E : Env) (lib : MarkItDownLib) (path : string) (b : bool) (s : fs) :
  import_markitdown E = Ret lib ->
  s !! path = None ->
  convert_file E path b s
    = (Ret (failure_of_file path ("File not found: " +:+ path)), s).
Proof.
  intros Himp Hnone.
  unfold convert_file, import_MarkItDown, bind.
  rewrite Himp, (os_path_exists_absent _ _ Hnone). reflexivity.
Qed.

(** C4, as the code has it.  With the library importable, a path that
    does not exist yields the failure result whose error is
    ["File not found: "] followed by the path and whose markdown is
    [None]; nothing is raised, the file system is untouched, and the
    outcome is the same for every library, none of whose operations is
    called. *)
Theorem convert_file_not_found
    (E : Env) (lib : MarkItDownLib) (path : string) (b : bool) (s : fs) :
  import_markitdown E = Ret lib ->
  s !! path = None ->
  convert_file E path b s
    = (Ret [ ("success", PBool false);
             ("error", PStr ("File not found: " +:+ path));
             ("markdown", PNone);
             ("file_path", PStr path) ], s).
Proof. exact (convert_file_absent E lib path b s). Qed.

Lemma convert_file_not_found_witness :
  convert_file Samples.env_ok "nope.pdf" false Samples.fs_doc
    = (Ret (failure_of_file "nope.pdf" "File not found: nope.pdf"), Samples.fs_doc).
Proof.
  apply (convert_file_not_found Samples.env_ok Samples.lib_ok); reflexivity.
Defined.

(** C4 as stated fails where the library is not installed: the path does
    not exist, and [convert_file] raises instead of returning a result. *)
Lemma convert_file_not_found_raises_without_library :
  Samples.fs_doc !! "nope.pdf" = None /\
  convert_file Samples.env_missing "nope.pdf" false Samples.fs_doc
    = (Raise Samples.no_module, Samples.fs_doc) /\
  forall d s', convert_file Samples.env_missing "nope.pdf" false Samples.fs_doc
               <> (Ret d, s').
Proof.
  split; [reflexivity |]. split; [reflexivity |].
  intros d s' H. discriminate H.
Qed.

(** For a path that does not exist the library plays no part: any two
    importable libraries and plugin flags give the same outcome. *)
Lemma convert_file_absent_ignores_library
    (E E' : Env) (lib lib' : MarkItDownLib) (path : string) (b b' : bool)
    (s : fs) :
  import_markitdown E = Ret lib ->
  import_markitdown E' = Ret lib' ->
  s !! path = None ->
  convert_file E path b s = convert_file E' path b' s.
Proof.
  intros Himp Himp' Hnone.
  rewrite (convert_file_absent E lib path b s Himp Hnone).
  now rewrite (convert_file_absent E' lib' path b' s Himp' Hnone).
Qed.

(** Unfolding of [convert_file] past the import and the existence test. *)
Lemma convert_file_existing
    (E : Env) (lib : MarkItDownLib) (path : string) (b : bool) (s : fs) :
  import_markitdown E = Ret lib ->
  is_Some (s !! path) ->
  convert_file E path b s =
    try_except_Exception
      (text <- converter_call lib b path ;; ret (success_of_file E path text))
      (fun e => ret (failure_of_file path (str_exn e))) s.
Proof.
  intros Himp Hsome.
  unfold convert_file, import_MarkItDown, bind at 1 2.
  rewrite Himp, (os_path_exists_present _ _ Hsome).
  change (negb true) with false. cbv iota.
  unfold try_except_Exception, converter_call, bind.
  destruct (md_new lib b s) as [[[]|e] s1]; [| reflexivity].
  destruct (md_convert lib b path s1) as [[t|e] s2]; reflexivity.
Qed.

(** C3, as the code has it.  For an existing path, when the converter
    (its construction or its [convert] call) raises [e], the handler of
    [convert_file] looks at its class: an instance of [Exception] is
    caught and [convert_file] returns the failure result carrying
    [str(e)] and [markdown = None], raising nothing; an exception that
    derives from [BaseException] only is not caught and is raised to the
    caller. *)
Theorem convert_file_catches_Exception
    (E : Env) (lib : MarkItDownLib) (path : string) (b : bool)
    (s s' : fs) (e : exn) :
  import_markitdown E = Ret lib ->
  is_Some (s !! path) ->
  converter_call lib b path s = (Raise e, s') ->
  convert_file E path b s
    = (if isinstance_Exception e
       then Ret [ ("success", PBool false);
                  ("error", PStr (str_exn e));
                  ("markdown", PNone);
                  ("file_path", PStr path) ]
       else Raise e,
       s').
Proof.
  intros Himp Hsome Hcall.
  rewrite (convert_file_existing E lib path b s Himp Hsome).
  unfold try_except_Exception, bind. rewrite Hcall.
  destruct (isinstance_Exception e); reflexivity.
Qed.

Lemma convert_file_catches_Exception_witness :
  convert_file (Samples.env_with (Ret (Samples.lib_raising Samples.no_space)))
      "docs/Report.PDF" true Samples.fs_doc
    = (Ret (failure_of_file "docs/Report.PDF" "[Errno 28] No space left on device"),
       Samples.fs_doc)
  /\
  convert_file (Samples.env_with (Ret (Samples.lib_raising (SystemExit 3))))
      "docs/Report.PDF" true Samples.fs_doc
    = (Raise (SystemExit 3), Samples.fs_doc).
Proof.
  split.
  - apply (convert_file_catches_Exception
             (Samples.env_with (Ret (Samples.lib_raising Samples.no_space)))
             (Samples.lib_raising Samples.no_space)
             "docs/Report.PDF" true Samples.fs_doc Samples.fs_doc
             Samples.no_space).
    + reflexivity.
    + vm_compute. eauto.
    + reflexivity.
  - apply (convert_file_catches_Exception
             (Samples.env_with (Ret (Samples.lib_raising (SystemExit 3))))
             (Samples.lib_raising (SystemExit 3))
             "docs/Report.PDF" true Samples.fs_doc Samples.fs_doc
             (SystemExit 3)).
    + reflexivity.
    + vm_compute. eauto.
    + reflexivity.
Defined.

(** C3 as stated fails for an exception outside [Exception]: the file
    exists, the converter raises [KeyboardInterrupt], and [convert_file]
    lets it through to its caller. *)
Lemma convert_file_lets_KeyboardInterrupt_through :
  is_Some (Samples.fs_doc !! "docs/Report.PDF") /\
  converter_call (Samples.lib_raising KeyboardInterrupt) false
      "docs/Report.PDF" Samples.fs_doc
    = (Raise KeyboardInterrupt, Samples.fs_doc) /\
  convert_file Samples.env_interrupted "docs/Report.PDF" false Samples.fs_doc
    = (Raise KeyboardInterrupt, Samples.fs_doc).
Proof.
  split; [vm_compute; eauto |]. split; reflexivity.
Qed.

(** C8. For an existing path on which the converter returns [text],
    [convert_file] returns the success result: the markdown is [text],
    [file_path] is the path as given, [file_name] is its base name and
    [file_extension] is what [str.lower] makes of its suffix. *)
Theorem convert_file_success
    (E : Env) (lib : MarkItDownLib) (path : string) (b : bool)
    (s s' : fs) (text : string) :
  import_markitdown E = Ret lib ->
  is_Some (s !! path) ->
  converter_call lib b path s = (Ret text, s') ->
  convert_file E path b s = (Ret (success_of_file E path text), s') /\
  dict_get "markdown" (success_of_file E path text) = Some (PStr text) /\
  dict_get "file_path" (success_of_file E path text) = Some (PStr path) /\
  dict_get "file_name" (success_of_file E path text)
    = Some (PStr (PyPath.basename path)) /\
  dict_get "file_extension" (success_of_file E path text)
    = Some (PStr (str_lower E (PyPath.suffix path))).
Proof.
  intros Himp Hsome Hcall.
  split; [| repeat split].
  rewrite (convert_file_existing E lib path b s Himp Hsome).
  unfold try_except_Exception, bind. rewrite Hcall. reflexivity.
Qed.

Lemma convert_file_success_witness :
  convert_file Samples.env_ok "docs/Report.PDF" false Samples.fs_doc
    = (Ret [ ("success", PBool true); ("error", PNone);
             ("markdown", PStr "# hi");
             ("file_path", PStr "docs/Report.PDF");
             ("file_name", PStr "Report.PDF");
             ("file_extension", PStr ".pdf") ],
       Samples.fs_doc).
Proof.
  apply (convert_file_success Samples.env_ok Samples.lib_ok
           "docs/Report.PDF" false Samples.fs_doc Samples.fs_doc "# hi").
  - reflexivity.
  - vm_compute. eauto.
  - reflexivity.
Defined.

(** ** The control-flow combinators *)

Lemma bind_Ret {S A B} (c : M S A) (k : A -> M S B) (s s1 : S) (a : A) :
  c s = (Ret a, s1) -> bind c k s = k a s1.
Proof. intros H. unfold bind. now rewrite H. Qed.

Lemma bind_Raise {S A B} (c : M S A) (k : A -> M S B) (s s1 : S) (e : exn) :
  c s = (Raise e, s1) -> bind c k s = (Raise e, s1).
Proof. intros H. unfold bind. now rewrite H. Qed.

Lemma bind_returns {S A B} (c : M S A) (k : A -> M S B) (s s' : S) (b : B) :
  bind c k s = (Ret b, s') ->
  exists a s1, c s = (Ret a, s1) /\ k a s1 = (Ret b, s').
Proof.
  unfold bind. destruct (c s) as [[a|e] s1]; intros H.
  - now exists a, s1.
  - discriminate H.
Qed.

Lemma try_except_returns {S A} (body : M S A) (h : exn -> M S A)
    (s s' : S) (a : A) :
  try_except_Exception body h s = (Ret a, s') ->
  body s = (Ret a, s') \/
  exists e s1, body s = (Raise e, s1) /\ isinstance_Exception e = true
               /\ h e s1 = (Ret a, s').
Proof.
  unfold try_except_Exception.
  destruct (body s) as [[x|e] s1]; intros H.
  - left. exact H.
  - right. exists e, s1. destruct (isinstance_Exception e).
    + split; [reflexivity | split; [reflexivity | exact H]].
    + discriminate H.
Qed.

Lemma try_finally_returns {S A} (body : M S A) (c : M S unit)
    (s s' : S) (a : A) :
  try_finally body c s = (Ret a, s') ->
  exists s1, body s = (Ret a, s1) /\ c s1 = (Ret tt, s').
Proof.
  unfold try_finally.
  destruct (body s) as [r s1]. destruct (c s1) as [[[]|e] s2] eqn:Hc; intros H.
  - inversion H; subst. exists s1. split; [reflexivity | exact Hc].
  - discriminate H.
Qed.

(** ** Temporary files *)

(** [mkstemp_inner] either creates one new, empty file at a path that was
    free, or raises and changes nothing. *)
Lemma mkstemp_inner_spec (E : Env) (names : list string) (suffix : string)
    (s s' : fs) (r : res string) :
  mkstemp_inner E names suffix s = (r, s') ->
  match r with
  | Ret f => s !! f = None /\ s' = <[f := []]> s
  | Raise _ => s' = s
  end.
Proof.
  induction names as [| n rest IH]; simpl; intros H.
  - inversion H; subst. reflexivity.
  - destruct (s !! (tempdir E +:+ "/tmp" +:+ n +:+ suffix)) eqn:Hl.
    + now apply IH.
    + destruct (os_open_fault E _) as [e|]; inversion H; subst; auto.
Qed.

Lemma os_unlink_present (E : Env) (f : string) (s : fs) :
  is_Some (s !! f) -> os_unlink E f s = (Ret tt, delete f s).
Proof. intros [c Hc]. unfold os_unlink. now rewrite Hc. Qed.

Lemma os_unlink_absent_after (E : Env) (f : string) (s : fs) :
  snd (os_unlink E f s) !! f = None.
Proof.
  unfold os_unlink. destruct (s !! f) eqn:Hl; simpl.
  - apply lookup_delete_eq.
  - exact Hl.
Qed.

(** ** [convert_bytes] *)

Lemma convert_bytes_unfold
    (E : Env) (lib : MarkItDownLib) (content : list Byte.byte)
    (ext : string) (b : bool) (s : fs) :
  import_markitdown E = Ret lib ->
  convert_bytes E content ext b s =
    try_except_Exception
      (temp_path <-
         (f <- NamedTemporaryFile E (normalize_extension ext) ;;
          file_write E f content ;;; ret f) ;;
       convert_temp E lib (normalize_extension ext) b temp_path)
      (fun e => ret (failure_of_bytes (normalize_extension ext) (str_exn e))) s.
Proof.
  intros Himp.
  unfold convert_bytes, import_MarkItDown, with_NamedTemporaryFile,
    convert_temp, converter_call, try_except_Exception, try_finally, bind.
  rewrite Himp. cbv beta zeta.
  destruct (NamedTemporaryFile E (normalize_extension ext) s)
    as [[f|e] s1]; [| reflexivity].
  destruct (file_write E f content s1) as [[[]|e] s2]; [| reflexivity].
  unfold ret.
  destruct (md_new lib b s2) as [[[]|e] s3]; [| reflexivity].
  destruct (md_convert lib b f s3) as [[t|e] s4]; reflexivity.
Qed.

(** Whatever the converter does, the path of the temporary file is free
    when the [try]/[finally] block is left. *)
Lemma convert_temp_removes (E : Env) (lib : MarkItDownLib) (ext : string)
    (b : bool)
    (f : string) (s : fs) :
  snd (convert_temp E lib ext b f s) !! f = None.
Proof.
  unfold convert_temp, try_finally.
  destruct (bind _ _ s) as [r s1].
  pose proof (os_unlink_absent_after E f s1) as H.
  destruct (os_unlink E f s1) as [[[]|e] s2]; exact H.
Qed.

(** With a library that only reads, the block restores the file system
    to what it was before the temporary file was created. *)
Lemma convert_temp_restores (E : Env) (lib : MarkItDownLib) (ext : string)
    (b : bool)
    (f : string) (content : list Byte.byte) (s : fs) :
  read_only lib ->
  s !! f = None ->
  snd (convert_temp E lib ext b f (<[f := content]> (<[f := []]> s))) = s.
Proof.
  intros [Hnew Hconv] Hfree.
  unfold convert_temp, try_finally, converter_call, bind.
  set (s2 := <[f := content]> (<[f := []]> s)).
  assert (Hdel : os_unlink E f s2 = (Ret tt, s)).
  { rewrite os_unlink_present.
    - unfold s2. rewrite insert_insert_eq. now rewrite delete_insert_id.
    - unfold s2. rewrite lookup_insert_eq. eauto. }
  pose proof (Hnew b s2) as H1.
  destruct (md_new lib b s2) as [[[]|e] s3]; simpl in H1; subst s3.
  - pose proof (Hconv b f s2) as H2.
    destruct (md_convert lib b f s2) as [[t|e] s4]; simpl in H2; subst s4;
      simpl; now rewrite Hdel.
  - now rewrite Hdel.
Qed.

(** Once the buffer has been written to the temporary file, that file is
    gone when [convert_bytes] is left, for every behaviour of the
    converter: a result, an [Exception], or any other exception. *)
Lemma convert_bytes_temp_removed
    (E : Env) (lib : MarkItDownLib) (content : list Byte.byte)
    (ext : string) (b : bool) (s s1 : fs) (f : string) :
  import_markitdown E = Ret lib ->
  NamedTemporaryFile E (normalize_extension ext) s = (Ret f, s1) ->
  os_write_fault E f content = None ->
  snd (convert_bytes E content ext b s) !! f = None.
Proof.
  intros Himp Hnew Hw.
  rewrite (convert_bytes_unfold E lib content ext b s Himp).
  unfold try_except_Exception.
  rewrite (bind_Ret _ _ s (<[f := content]> s1) f).
  - pose proof (convert_temp_removes E lib (normalize_extension ext) b f
                  (<[f := content]> s1)) as H.
    destruct (convert_temp _ _ _ _ _ _) as [[d|e] s3]; simpl in H |- *.
    + exact H.
    + destruct (isinstance_Exception e); exact H.
  - rewrite (bind_Ret _ _ s s1 f Hnew).
    unfold bind, file_write. now rewrite Hw.
Qed.

(** With a library that only reads and a file system that accepts the
    write, [convert_bytes] leaves the file system exactly as it found it,
    on every exit path. *)
Lemma convert_bytes_files_unchanged
    (E : Env) (lib : MarkItDownLib) (content : list Byte.byte)
    (ext : string) (b : bool) (s : fs) :
  import_markitdown E = Ret lib ->
  read_only lib ->
  (forall f, os_write_fault E f content = None) ->
  snd (convert_bytes E content ext b s) = s.
Proof.
  intros Himp Hro Hw.
  rewrite (convert_bytes_unfold E lib content ext b s Himp).
  unfold try_except_Exception, bind at 1, bind at 1, NamedTemporaryFile.
  pose proof (mkstemp_inner_spec E (temp_names E) (normalize_extension ext) s) as Hmk.
  destruct (mkstemp_inner E (temp_names E) (normalize_extension ext) s)
    as [[f|e] s1]; specialize (Hmk _ _ eq_refl); simpl in Hmk.
  - destruct Hmk as [Hfree ->].
    unfold bind, file_write. rewrite Hw. unfold ret.
    pose proof (convert_temp_restores E lib (normalize_extension ext) b f
                  content s Hro Hfree) as H.
    destruct (convert_temp _ _ _ _ _ _) as [[d|e] s3]; simpl in H |- *.
    + exact H.
    + destruct (isinstance_Exception e); exact H.
  - subst s1. destruct (isinstance_Exception e); reflexivity.
Qed.

(** When the write to the new temporary file raises, [convert_bytes]
    returns a failure result and the temporary file stays behind, with
    what was written of the buffer before the error: the [finally] that
    unlinks it guards the conversion only. *)
Lemma convert_bytes_write_error
    (E : Env) (lib : MarkItDownLib) (content : list Byte.byte)
    (ext : string) (b : bool) (s s1 : fs) (f : string) (e : exn) :
  import_markitdown E = Ret lib ->
  NamedTemporaryFile E (normalize_extension ext) s = (Ret f, s1) ->
  os_write_fault E f content = Some e ->
  isinstance_Exception e = true ->
  convert_bytes E content ext b s
    = (Ret (failure_of_bytes (normalize_extension ext) (str_exn e)),
       <[f := take (os_write_done E f content) content]> s)
  /\ s !! f = None.
Proof.
  intros Himp Hnew Hw Hexc.
  pose proof (mkstemp_inner_spec E _ _ _ _ _ Hnew) as [Hfree ->].
  split; [| exact Hfree].
  rewrite (convert_bytes_unfold E lib content ext b s Himp).
  unfold try_except_Exception.
  rewrite (bind_Raise _ _ s
             (<[f := take (os_write_done E f content) content]> s) e).
  - now rewrite Hexc.
  - rewrite (bind_Ret _ _ s _ f Hnew).
    unfold bind, file_write. rewrite Hw. now rewrite insert_insert_eq.
Qed.

(** C1, where the code departs from it.  On a full volume the temporary
    file is created, writing the buffer raises [OSError], and
    [convert_bytes] returns its failure result with the temporary file
    still in the temporary directory, where there was none before. *)
Theorem convert_bytes_leaves_temp_file_on_write_error :
  convert_bytes Samples.env_disk_full Samples.hello "pdf" false Samples.fs_doc
    = (Ret (failure_of_bytes ".pdf" "[Errno 28] No space left on device"),
       <["/tmp/tmpabcd1234.pdf" := []]> Samples.fs_doc)
  /\ Samples.fs_doc !! "/tmp/tmpabcd1234.pdf" = None
  /\ snd (convert_bytes Samples.env_disk_full Samples.hello "pdf" false
            Samples.fs_doc) !! "/tmp/tmpabcd1234.pdf" = Some [].
Proof.
  destruct (convert_bytes_write_error Samples.env_disk_full Samples.lib_ok
              Samples.hello "pdf" false Samples.fs_doc
              (<["/tmp/tmpabcd1234.pdf" := []]> Samples.fs_doc)
              "/tmp/tmpabcd1234.pdf" Samples.no_space)
    as [Hres Hfree]; try reflexivity.
  split; [exact Hres |]. split; [exact Hfree |].
  rewrite Hres. simpl snd. apply lookup_insert_eq.
Qed.

(** C6. An extension without the leading dot is treated exactly as the
    same extension with it: [convert_bytes] yields the same outcome and
    the same file system for both. *)
Theorem convert_bytes_extension_normalized
    (E : Env) (content : list Byte.byte) (e : string) (b : bool) (s : fs) :
  PyStr.startswith "." e = false ->
  convert_bytes E content e b s = convert_bytes E content ("." +:+ e) b s.
Proof.
  intros He.
  assert (Hn : normalize_extension e = normalize_extension ("." +:+ e)).
  { unfold normalize_extension. rewrite He, startswith_dot_cons. reflexivity. }
  unfold convert_bytes. now rewrite Hn.
Qed.

Lemma convert_bytes_extension_normalized_witness :
  convert_bytes Samples.env_ok Samples.hello "pdf" false Samples.fs_doc
    = convert_bytes Samples.env_ok Samples.hello ".pdf" false Samples.fs_doc.
Proof.
  apply (convert_bytes_extension_normalized Samples.env_ok Samples.hello "pdf").
  reflexivity.
Defined.

Example convert_bytes_pdf :
  convert_bytes Samples.env_ok Samples.hello "pdf" false Samples.fs_doc
    = (Ret (success_of_bytes ".pdf" "# hi"), Samples.fs_doc).
Proof. vm_compute. reflexivity. Qed.

(** ** The result invariant *)

Lemma convert_file_returns
    (E : Env) (path : string) (b : bool) (s s' : fs) (d : dict) :
  convert_file E path b s = (Ret d, s') ->
  (exists msg, d = failure_of_file path msg) \/
  (exists text, d = success_of_file E path text).
Proof.
  intros H.
  destruct (import_markitdown E) as [lib|e] eqn:Himp.
  - destruct (s !! path) as [c|] eqn:Hl.
    + rewrite (convert_file_existing E lib path b s Himp) in H by eauto.
      apply try_except_returns in H as [H | (e & s1 & _ & _ & H)].
      * apply bind_returns in H as (text & s1 & _ & H).
        inversion H; subst. right. now exists text.
      * inversion H; subst. left. now exists (str_exn e).
    + rewrite (convert_file_absent E lib path b s Himp Hl) in H.
      inversion H; subst. left. eauto.
  - rewrite (convert_file_import_raises E e path b s Himp) in H.
    discriminate H.
Qed.

Lemma convert_bytes_returns
    (E : Env) (content : list Byte.byte) (ext : string) (b : bool)
    (s s' : fs) (d : dict) :
  convert_bytes E content ext b s = (Ret d, s') ->
  (exists msg, d = failure_of_bytes (normalize_extension ext) msg) \/
  (exists text, d = success_of_bytes (normalize_extension ext) text).
Proof.
  intros H.
  destruct (import_markitdown E) as [lib|e] eqn:Himp.
  - rewrite (convert_bytes_unfold E lib content ext b s Himp) in H.
    apply try_except_returns in H as [H | (e & s1 & _ & _ & H)].
    + apply bind_returns in H as (f & s1 & _ & H).
      apply try_finally_returns in H as (s2 & H & _).
      apply bind_returns in H as (text & s3 & _ & H).
      inversion H; subst. right. now exists text.
    + inversion H; subst. left. now exists (str_exn e).
  - rewrite (convert_bytes_import_raises E e content ext b s Himp) in H.
    discriminate H.
Qed.

(** C5. Every result that [convert_file] or [convert_bytes] returns
    satisfies the invariant: [success] is a boolean; when it is true the
    markdown is a string and the error is [None]; when it is false the
    error is a string and the markdown is [None]. *)
Theorem returned_result_invariant (E : Env) (s s' : fs) (d : dict) :
  (exists path b, convert_file E path b s = (Ret d, s')) \/
  (exists content ext b, convert_bytes E content ext b s = (Ret d, s')) ->
  result_invariant d = true.
Proof.
  intros [(path & b & H) | (content & ext & b & H)].
  - apply convert_file_returns in H as [[msg ->] | [text ->]]; reflexivity.
  - apply convert_bytes_returns in H as [[msg ->] | [text ->]]; reflexivity.
Qed.

Lemma returned_result_invariant_witness :
  result_invariant (success_of_bytes ".pdf" "# hi") = true.
Proof.
  apply (returned_result_invariant Samples.env_ok Samples.fs_doc Samples.fs_doc).
  right. exists Samples.hello, "pdf", false. vm_compute. reflexivity.
Defined.

(** ** The command line *)

(** Without [--check] and without a usable file path, [main] stops in
    [parser.error]. *)
Lemma main_without_path (E : Env) (args : Namespace) (w : World) :
  args_check args = false ->
  given (args_file_path args) = false ->
  main E args w
    = (Raise (SystemExit 2),
       {| files := files w; stdout := stdout w;
          stderr := stderr w ++ usage_error_lines E |}).
Proof.
  intros Hc Hp. unfold main. rewrite Hc, Hp.
  unfold parser_error, print_stderr, sys_exit, raise, bind, ret. simpl.
  now rewrite <- app_assoc.
Qed.

(** Without a usable file path the library is never consulted: two
    environments that agree on the program name give the same run. *)
Lemma main_without_path_ignores_library (E E' : Env) (args : Namespace)
    (w : World) :
  args_check args = false ->
  given (args_file_path args) = false ->
  prog E = prog E' ->
  main E args w = main E' args w.
Proof.
  intros Hc Hp Hprog.
  rewrite !main_without_path by assumption.
  unfold usage_error_lines, usage. now rewrite Hprog.
Qed.

(** [--check] reports whether the library can be imported and exits,
    whatever else is on the command line. *)
Lemma main_check (E : Env) (args : Namespace) (w : World) :
  args_check args = true ->
  (forall e, import_markitdown E = Raise e -> isinstance_ImportError e = true) ->
  run E args w
    = match import_markitdown E with
      | Ret _ =>
          (0, {| files := files w;
                 stdout := stdout w ++ [Json true [("installed", PBool true)]];
                 stderr := stderr w |})
      | Raise _ =>
          (1, {| files := files w;
                 stdout := stdout w ++
                   [Json true [ ("installed", PBool false);
                                ("error", PStr not_installed_message) ]];
                 stderr := stderr w |})
      end.
Proof.
  intros Hc Hie. unfold run, main, check_markitdown_installed. rewrite Hc.
  destruct (import_markitdown E) as [lib|e]; [reflexivity |].
  now rewrite (Hie e eq_refl).
Qed.

(** *** Invocations that reach the conversion *)

Section Converting.

Variables (E : Env) (lib : MarkItDownLib) (args : Namespace) (w : World).
Variable p : string.

Hypothesis Hcheck : args_check args = false.
Hypothesis Hpath : args_file_path args = Some p.
Hypothesis Hnonempty : PyStr.is_empty p = false.
Hypothesis Himport : import_markitdown E = Ret lib.

(** Past the two guards, with the library importable, [main] converts the
    file and reports. *)
Lemma main_converts :
  main E args w
    = (result <- lift_fs (convert_file E p (args_enable_plugins args)) ;;
       if args_json args then print (Json false result)
       else
         ok <- dict_item result "success" ;;
         if truthy ok then
           if given (args_output args) then
             markdown <- dict_item result "markdown" ;;
             write_text E (default "" (args_output args)) markdown ;;;
             print (Text ("Converted successfully: "
                          +:+ default "" (args_output args)))
           else
             markdown <- dict_item result "markdown" ;;
             print (Text (format_val markdown))
         else
           err <- dict_item result "error" ;;
           print_stderr ("Error: " +:+ format_val err) ;;;
           sys_exit 1) w.
Proof.
  unfold main, check_markitdown_installed.
  rewrite Hcheck, Hpath, Himport. unfold given. rewrite Hnonempty.
  reflexivity.
Qed.

Variables (d : dict) (s' : fs).

Hypothesis Hconv :
  convert_file E p (args_enable_plugins args) (files w) = (Ret d, s').

Ltac into_report :=
  rewrite main_converts; unfold bind at 1, lift_fs; rewrite Hconv.

(** In JSON mode the converted result is printed and [main] returns,
    whether the result is a success or a failure. *)
Lemma main_json_converted :
  args_json args = true ->
  main E args w
    = (Ret tt,
       {| files := s'; stdout := stdout w ++ [Json false d];
          stderr := stderr w |}).
Proof. intros Hj. into_report. rewrite Hj. reflexivity. Qed.

(** In plain mode a failure result goes to the error stream and [main]
    exits with 1. *)
Lemma main_plain_failure (msg : string) :
  args_json args = false ->
  d = failure_of_file p msg ->
  main E args w
    = (Raise (SystemExit 1),
       {| files := s'; stdout := stdout w;
          stderr := stderr w ++ ["Error: " +:+ msg] |}).
Proof. intros Hj Hd. into_report. rewrite Hj, Hd. reflexivity. Qed.

(** In plain mode without [--output] the markdown of a success result is
    printed and [main] returns. *)
Lemma main_plain_success (text : string) :
  args_json args = false ->
  given (args_output args) = false ->
  d = success_of_file E p text ->
  main E args w
    = (Ret tt,
       {| files := s'; stdout := stdout w ++ [Text text];
          stderr := stderr w |}).
Proof.
  intros Hj Ho Hd. into_report. rewrite Hj, Hd.
  unfold bind, dict_item. simpl. rewrite Ho. reflexivity.
Qed.

(** In plain mode with [--output o] the markdown of a success result is
    written to [o] and a confirmation is printed. *)
Lemma main_plain_output_written (text o : string) :
  args_json args = false ->
  args_output args = Some o ->
  PyStr.is_empty o = false ->
  d = success_of_file E p text ->
  open_w_fault E o = None ->
  os_write_fault E o (list_byte_of_string text) = None ->
  main E args w
    = (Ret tt,
       {| files := <[o := list_byte_of_string text]> s';
          stdout := stdout w ++ [Text ("Converted successfully: " +:+ o)];
          stderr := stderr w |}).
Proof.
  intros Hj Ho Hne Hd Hopen Hwrite. into_report. rewrite Hj, Hd.
  unfold bind, dict_item, write_text, lift_fs, file_write, given. simpl.
  rewrite Ho. simpl. rewrite Hne, Hopen, Hwrite. simpl.
  now rewrite insert_insert_eq.
Qed.

(** When the output file cannot be opened, the error of [open] leaves
    [main] uncaught, although the conversion succeeded. *)
Lemma main_plain_output_error (text o : string) (e : exn) :
  args_json args = false ->
  args_output args = Some o ->
  PyStr.is_empty o = false ->
  d = success_of_file E p text ->
  open_w_fault E o = Some e ->
  main E args w
    = (Raise e, {| files := s'; stdout := stdout w; stderr := stderr w |}).
Proof.
  intros Hj Ho Hne Hd Hopen. into_report. rewrite Hj, Hd.
  unfold bind, dict_item, write_text, lift_fs, given. simpl.
  rewrite Ho. simpl. rewrite Hne, Hopen. reflexivity.
Qed.

(** In JSON mode the exit status is 0 for every result that
    [convert_file] returns, a failure result included. *)
Lemma run_json_status : args_json args = true -> fst (run E args w) = 0.
Proof. intros Hj. unfold run. now rewrite main_json_converted. Qed.

End Converting.

(** In plain mode the exit status follows the result: 1 for a failure,
    0 for a success that is printed. *)
Lemma run_plain_status (E : Env) (lib : MarkItDownLib) (args : Namespace)
    (w : World) (p : string) (d : dict) (s' : fs) :
  args_check args = false ->
  args_file_path args = Some p ->
  PyStr.is_empty p = false ->
  import_markitdown E = Ret lib ->
  args_json args = false ->
  given (args_output args) = false ->
  convert_file E p (args_enable_plugins args) (files w) = (Ret d, s') ->
  fst (run E args w)
    = if truthy (default PNone (dict_get "success" d)) then 0 else 1.
Proof.
  intros Hc Hp Hne Himp Hj Ho Hconv. unfold run.
  destruct (convert_file_returns E p _ _ _ _ Hconv) as [[msg Hd] | [text Hd]].
  - rewrite (main_plain_failure E lib args w p Hc Hp Hne Himp d s' Hconv msg Hj Hd).
    now rewrite Hd.
  - rewrite (main_plain_success E lib args w p Hc Hp Hne Himp d s' Hconv text Hj Ho Hd).
    now rewrite Hd.
Qed.

(** With the library missing, [main] reports that and exits with 1, in
    JSON mode too. *)
Lemma main_missing_dependency (E : Env) (args : Namespace) (w : World)
    (p : string) (e : exn) :
  args_check args = false ->
  args_file_path args = Some p ->
  PyStr.is_empty p = false ->
  import_markitdown E = Raise e ->
  isinstance_ImportError e = true ->
  main E args w
    = (Raise (SystemExit 1),
       if args_json args then
         {| files := files w;
            stdout := stdout w ++
              [Json true [ ("success", PBool false);
                           ("error", PStr not_installed_message);
                           ("markdown", PNone) ]];
            stderr := stderr w |}
       else
         {| files := files w; stdout := stdout w;
            stderr := stderr w ++ ["Error: " +:+ not_installed_message] |}).
Proof.
  intros Hc Hp Hne Himp Hie. unfold main, check_markitdown_installed.
  rewrite Hc, Hp, Himp, Hie. unfold given. rewrite Hne.
  destruct (args_json args); reflexivity.
Qed.

(** C7, as the code has it.  Without [--check] and without a positional
    file path the process exits with status 2, the status of
    [parser.error]; the usage line and the error message are appended to
    the error stream, nothing is printed to standard output, the file
    system is untouched, and the outcome does not depend on the library:
    no conversion takes place. *)
Theorem main_without_path_exits_2 (E : Env) (args : Namespace) (w : World) :
  args_check args = false ->
  args_file_path args = None ->
  run E args w
    = (2, {| files := files w; stdout := stdout w;
             stderr := stderr w ++ usage_error_lines E |}).
Proof.
  intros Hc Hp. unfold run.
  rewrite (main_without_path E args w Hc); [reflexivity |].
  now rewrite Hp.
Qed.

Lemma main_without_path_exits_2_witness :
  run Samples.env_ok (Samples.cli None None false false) Samples.world_doc
    = (2, {| files := Samples.fs_doc; stdout := [];
             stderr := usage_error_lines Samples.env_ok |}).
Proof.
  apply (main_without_path_exits_2 Samples.env_ok
           (Samples.cli None None false false) Samples.world_doc);
    reflexivity.
Defined.

(** C7 as stated fails on the exit status: it is 2, not 1. *)
Lemma main_without_path_status_is_not_1 :
  fst (run Samples.env_ok (Samples.cli None None false false) Samples.world_doc)
    = 2 /\
  fst (run Samples.env_ok (Samples.cli None None false false) Samples.world_doc)
    <> 1.
Proof. split; [reflexivity | discriminate]. Qed.

(** C2, where the code departs from it.  With [--json] and a path that
    does not exist, the conversion fails, the failure result is printed,
    and the process exits with status 0.  The same invocation without
    [--json] exits with 1, and so does the report of a missing library
    in JSON mode. *)
Theorem main_json_failure_exits_0 :
  run Samples.env_ok (Samples.cli (Some "missing.pdf") None true false)
      Samples.world_doc
    = (0, {| files := Samples.fs_doc;
             stdout := [Json false
                          [ ("success", PBool false);
                            ("error", PStr "File not found: missing.pdf");
                            ("markdown", PNone);
                            ("file_path", PStr "missing.pdf") ]];
             stderr := [] |})
  /\ fst (run Samples.env_ok (Samples.cli (Some "missing.pdf") None false false)
            Samples.world_doc) = 1
  /\ fst (run Samples.env_missing (Samples.cli (Some "missing.pdf") None true false)
            Samples.world_doc) = 1.
Proof.
  split; [| split].
  - unfold run.
    now rewrite (main_json_converted Samples.env_ok Samples.lib_ok
                   (Samples.cli (Some "missing.pdf") None true false)
                   Samples.world_doc "missing.pdf"
                   eq_refl eq_refl eq_refl eq_refl
                   (failure_of_file "missing.pdf" "File not found: missing.pdf")
                   Samples.fs_doc eq_refl eq_refl).
  - unfold run.
    now rewrite (main_plain_failure Samples.env_ok Samples.lib_ok
                   (Samples.cli (Some "missing.pdf") None false false)
                   Samples.world_doc "missing.pdf"
                   eq_refl eq_refl eq_refl eq_refl
                   (failure_of_file "missing.pdf" "File not found: missing.pdf")
                   Samples.fs_doc eq_refl
                   "File not found: missing.pdf" eq_refl eq_refl).
  - unfold run.
    now rewrite (main_missing_dependency Samples.env_missing _ _
                   "missing.pdf" Samples.no_module).
Qed.

(** C9, as the code has it.  With [--json], without [--check] and with a
    non-empty file path, one object is printed to standard output.  When
    the library is missing it has exactly the keys [success], [error] and
    [markdown], and the exit status is 1.  When the library is there and
    [convert_file] returns, the object is that result: its keys are
    [success], [error], [markdown], [file_path], followed on success by
    [file_name] and [file_extension]. *)
Theorem main_json_prints_one_object
    (E : Env) (args : Namespace) (w : World) (p : string) :
  args_json args = true ->
  args_check args = false ->
  args_file_path args = Some p ->
  PyStr.is_empty p = false ->
  (forall e, import_markitdown E = Raise e -> isinstance_ImportError e = true ->
     exists d,
       run E args w
         = (1, {| files := files w; stdout := stdout w ++ [Json true d];
                  stderr := stderr w |})
       /\ dict_keys d = ["success"; "error"; "markdown"]) /\
  (forall lib d s', import_markitdown E = Ret lib ->
     convert_file E p (args_enable_plugins args) (files w) = (Ret d, s') ->
     run E args w
       = (0, {| files := s'; stdout := stdout w ++ [Json false d];
                stderr := stderr w |})
     /\ dict_keys d
         = if truthy (default PNone (dict_get "success" d))
           then ["success"; "error"; "markdown"; "file_path";
                 "file_name"; "file_extension"]
           else ["success"; "error"; "markdown"; "file_path"]).
Proof.
  intros Hj Hc Hp Hne. split.
  - intros e Himp Hie. eexists. unfold run.
    rewrite (main_missing_dependency E args w p e Hc Hp Hne Himp Hie), Hj.
    split; reflexivity.
  - intros lib d s' Himp Hconv. unfold run.
    rewrite (main_json_converted E lib args w p Hc Hp Hne Himp d s' Hconv Hj).
    split; [reflexivity |].
    destruct (convert_file_returns E p _ _ _ _ Hconv) as [[msg ->] | [text ->]];
      reflexivity.
Qed.

Lemma main_json_prints_one_object_witness :
  run Samples.env_ok (Samples.cli (Some "docs/Report.PDF") None true false)
      Samples.world_doc
    = (0, {| files := Samples.fs_doc;
             stdout := [Json false (success_of_file Samples.env_ok "docs/Report.PDF" "# hi")];
             stderr := [] |}).
Proof.
  assert (Hconv : convert_file Samples.env_ok "docs/Report.PDF" false
                    Samples.fs_doc
                  = (Ret (success_of_file Samples.env_ok "docs/Report.PDF" "# hi"),
                     Samples.fs_doc))
    by (vm_compute; reflexivity).
  exact (proj1 (proj2 (main_json_prints_one_object Samples.env_ok
                         (Samples.cli (Some "docs/Report.PDF") None true false)
                         Samples.world_doc "docs/Report.PDF"
                         eq_refl eq_refl eq_refl eq_refl)
                  Samples.lib_ok _ _ eq_refl Hconv)).
Defined.

(** C9 as stated fails twice.  With the library missing, the object
    printed has no [file_path] and no [file_extension], so its keys are
    not a documented key set; with [--check], the object printed is the
    installation report, which has none of the keys of a result. *)
Lemma main_json_prints_undocumented_keys :
  (stdout (snd (run Samples.env_missing
                  (Samples.cli (Some "docs/Report.PDF") None true false)
                  Samples.world_doc))
     = [Json true [ ("success", PBool false);
                    ("error", PStr not_installed_message);
                    ("markdown", PNone) ]]
   /\ documented_keys ["success"; "error"; "markdown"] = false) /\
  (stdout (snd (run Samples.env_ok
                  (Samples.cli (Some "docs/Report.PDF") None true true)
                  Samples.world_doc))
     = [Json true [("installed", PBool true)]]
   /\ documented_keys ["installed"] = false).
Proof. repeat split. Qed.

(** ** More on strings and paths *)

(** [rfind_from] returns either the fallback, when the character does not
    occur, or the position of its last occurrence. *)
Lemma rfind_from_spec (c : ascii) (s : string) (k last : Z) :
  last < k ->
  (PyStr.rfind_from c s k last = last /\
   forall j, String.get j s <> Some c) \/
  (k <= PyStr.rfind_from c s k last < k + PyStr.len s /\
   String.get (Z.to_nat (PyStr.rfind_from c s k last - k)) s = Some c /\
   forall j, (Z.to_nat (PyStr.rfind_from c s k last - k) < j)%nat ->
             String.get j s <> Some c).
Proof.
  revert k last. induction s as [| d t IH]; intros k last Hlt.
  - left. split; [reflexivity |]. intros j. destruct j; discriminate.
  - simpl PyStr.rfind_from.
    set (last' := if Ascii.eqb d c then k else last).
    assert (Hlt' : last' < k + 1) by (unfold last'; destruct (Ascii.eqb d c); lia).
    assert (Hlen : PyStr.len (String d t) = PyStr.len t + 1)
      by (unfold PyStr.len; simpl String.length; lia).
    destruct (IH (k + 1) last' Hlt') as [[Hr Hno] | (Hr & Hget & Hno)].
    + rewrite Hr. unfold last'. destruct (Ascii.eqb d c) eqn:Hd.
      * right. apply Ascii.eqb_eq in Hd. subst d.
        split; [unfold PyStr.len in *; simpl String.length; lia |].
        replace (k - k) with 0 by lia. split; [reflexivity |].
        intros j Hj. destruct j; [simpl in Hj; lia | apply Hno].
      * left. split; [reflexivity |].
        intros j. destruct j; [| apply Hno].
        simpl. intros H. inversion H; subst.
        rewrite Ascii.eqb_refl in Hd. discriminate.
    + right. split; [lia |].
      set (r := PyStr.rfind_from c t (k + 1) last') in *.
      replace (Z.to_nat (r - k)) with (S (Z.to_nat (r - (k + 1)))) by lia.
      split; [exact Hget |].
      intros j Hj. destruct j; [lia |]. apply Hno. lia.
Qed.

Lemma substring_full (s : string) : String.substring 0 (String.length s) s = s.
Proof. induction s as [| c t IH]; simpl; [reflexivity | now rewrite IH]. Qed.

(** A string is what comes before a position followed by what comes from
    it on. *)
Lemma split_at (n : nat) (s : string) :
  s = String.substring 0 n s +:+ String.substring n (String.length s - n) s.
Proof.
  revert n. induction s as [| c t IH]; intros n.
  - destruct n; reflexivity.
  - destruct n as [| n].
    + rewrite Nat.sub_0_r, substring_full. reflexivity.
    + transitivity
        (String c (String.substring 0 n t
                   +:+ String.substring n (String.length t - n) t)).
      * f_equal. apply IH.
      * reflexivity.
Qed.

Lemma get_slice_from (i : Z) (s : string) (j : nat) :
  String.get j (PyStr.slice_from i s) = Some "/"%char ->
  String.get (j + Z.to_nat i) s = Some "/"%char.
Proof.
  unfold PyStr.slice_from. intros H.
  destruct (Nat.lt_ge_cases j (String.length s - Z.to_nat i)) as [Hlt | Hge].
  - now rewrite <- (substring_correct1 s (Z.to_nat i) _ j Hlt).
  - rewrite (substring_correct2 s (Z.to_nat i) _ j Hge) in H. discriminate.
Qed.

(** [basename] holds no separator, and the path ends with it. *)
Lemma basename_no_separator (p : string) (j : nat) :
  String.get j (PyPath.basename p) <> Some "/"%char.
Proof.
  unfold PyPath.basename, PyStr.rfind. intros H.
  apply get_slice_from in H.
  destruct (rfind_from_spec "/" p 0 (-1) ltac:(lia)) as [[Hr Hno] | (Hr & _ & Hno)].
  - exact (Hno _ H).
  - apply (Hno (j + Z.to_nat (PyStr.rfind_from "/" p 0 (-1) + 1))%nat); [lia | exact H].
Qed.

Lemma basename_is_tail (p : string) : exists dir, p = dir +:+ PyPath.basename p.
Proof.
  exists (String.substring 0 (Z.to_nat (PyStr.rfind "/" p + 1)) p).
  apply split_at.
Qed.






(** ** More on [convert_file] *)

(** X1. Every result [convert_file] returns carries the path exactly as
    it was given under [file_path], in failure results too; a success
    result has the six keys of lines 84-89 and a failure result the four
    keys of lines 70-73 and 94-97, in that order. *)
Theorem convert_file_result_shape
    (E : Env) (path : string) (b : bool) (s s' : fs) (d : dict) :
  convert_file E path b s = (Ret d, s') ->
  dict_get "file_path" d = Some (PStr path) /\
  dict_keys d
    = if truthy (default PNone (dict_get "success" d))
      then ["success"; "error"; "markdown"; "file_path";
            "file_name"; "file_extension"]
      else ["success"; "error"; "markdown"; "file_path"].
Proof.
  intros H.
  destruct (convert_file_returns E path b s s' d H) as [[msg ->] | [text ->]];
    split; reflexivity.
Qed.

Lemma convert_file_result_shape_witness :
  dict_get "file_path" (failure_of_file "nope.pdf" "File not found: nope.pdf")
    = Some (PStr "nope.pdf") /\
  dict_keys (failure_of_file "nope.pdf" "File not found: nope.pdf")
    = ["success"; "error"; "markdown"; "file_path"].
Proof.
  apply (convert_file_result_shape Samples.env_ok "nope.pdf" false
           Samples.fs_doc Samples.fs_doc).
  vm_compute. reflexivity.
Defined.

(** X2. [convert_file] writes nothing itself: with a library that only
    reads, the file system after the call is the one before it, on every
    exit path (import error, missing file, success, failure result,
    propagated exception). *)
Theorem convert_file_keeps_files
    (E : Env) (path : string) (b : bool) (s : fs) :
  (forall lib, import_markitdown E = Ret lib -> read_only lib) ->
  snd (convert_file E path b s) = s.
Proof.
  intros Hro.
  destruct (import_markitdown E) as [lib|e] eqn:Himp.
  - destruct (Hro lib eq_refl) as [Hnew Hconv].
    destruct (s !! path) as [c|] eqn:Hl.
    + rewrite (convert_file_existing E lib path b s Himp) by eauto.
      unfold try_except_Exception, converter_call, bind.
      pose proof (Hnew b s) as H1.
      destruct (md_new lib b s) as [[[]|e] s1]; simpl in H1; subst s1.
      * pose proof (Hconv b path s) as H2.
        destruct (md_convert lib b path s) as [[t|e] s2]; simpl in H2; subst s2.
        -- reflexivity.
        -- destruct (isinstance_Exception e); reflexivity.
      * destruct (isinstance_Exception e); reflexivity.
    + now rewrite (convert_file_absent E lib path b s Himp Hl).
  - now rewrite (convert_file_import_raises E e path b s Himp).
Qed.

Lemma convert_file_keeps_files_witness :
  snd (convert_file Cases.env_const "docs/Report.PDF" true Samples.fs_doc)
    = Samples.fs_doc.
Proof.
  apply (convert_file_keeps_files Cases.env_const "docs/Report.PDF" true
           Samples.fs_doc).
  intros lib H. injection H as <-. split; reflexivity.
Defined.

(** X3. An exception of the converter that is not an instance of
    [Exception] ([KeyboardInterrupt], [SystemExit]) is never turned into
    a result: [convert_file] raises it to its caller. *)
Theorem convert_file_propagates_other_exceptions
    (E : Env) (lib : MarkItDownLib) (path : string) (b : bool)
    (s s' : fs) (e : exn) :
  import_markitdown E = Ret lib ->
  is_Some (s !! path) ->
  converter_call lib b path s = (Raise e, s') ->
  isinstance_Exception e = false ->
  convert_file E path b s = (Raise e, s').
Proof.
  intros Himp Hsome Hcall Hexc.
  rewrite (convert_file_existing E lib path b s Himp Hsome).
  unfold try_except_Exception, bind. now rewrite Hcall, Hexc.
Qed.

Lemma convert_file_propagates_other_exceptions_witness :
  convert_file (Samples.env_with (Ret (Samples.lib_raising (SystemExit 3))))
      "docs/Report.PDF" false Samples.fs_doc
    = (Raise (SystemExit 3), Samples.fs_doc).
Proof.
  apply (convert_file_propagates_other_exceptions
           (Samples.env_with (Ret (Samples.lib_raising (SystemExit 3))))
           (Samples.lib_raising (SystemExit 3))
           "docs/Report.PDF" false Samples.fs_doc Samples.fs_doc (SystemExit 3)).
  - reflexivity.
  - vm_compute. eauto.
  - reflexivity.
  - reflexivity.
Defined.

(** With the library importable and raising instances of [Exception]
    only, nothing is raised by [convert_file]. *)
Lemma convert_file_total
    (E : Env) (lib : MarkItDownLib) (path : string) (b : bool) (s : fs) :
  import_markitdown E = Ret lib ->
  raises_only_Exception lib ->
  exists d s', convert_file E path b s = (Ret d, s').
Proof.
  intros Himp Honly.
  destruct (s !! path) as [c|] eqn:Hl.
  - rewrite (convert_file_existing E lib path b s Himp) by eauto.
    unfold try_except_Exception, bind.
    destruct (converter_call lib b path s) as [[text|e] s1] eqn:Hcall.
    + eexists _, _. reflexivity.
    + rewrite (Honly b path s e s1 Hcall). eexists _, _. reflexivity.
  - rewrite (convert_file_absent E lib path b s Himp Hl).
    eexists _, _. reflexivity.
Qed.

(** X4. With the library importable and raising instances of [Exception]
    only, [convert_file] always returns a result, for every path, and the
    result satisfies the invariant: every failure is data. *)
Theorem convert_file_always_returns
    (E : Env) (lib : MarkItDownLib) (path : string) (b : bool) (s : fs) :
  import_markitdown E = Ret lib ->
  raises_only_Exception lib ->
  exists d s', convert_file E path b s = (Ret d, s')
               /\ result_invariant d = true.
Proof.
  intros Himp Honly.
  destruct (convert_file_total E lib path b s Himp Honly) as (d & s' & H).
  exists d, s'. split; [exact H |].
  destruct (convert_file_returns E path b s s' d H) as [[msg ->] | [text ->]];
    reflexivity.
Qed.

Lemma convert_file_always_returns_witness :
  exists d s',
    convert_file (Samples.env_with (Ret (Samples.lib_raising Samples.no_space)))
      "docs/Report.PDF" false Samples.fs_doc = (Ret d, s')
    /\ result_invariant d = true.
Proof.
  apply (convert_file_always_returns
           (Samples.env_with (Ret (Samples.lib_raising Samples.no_space)))
           (Samples.lib_raising Samples.no_space)).
  - reflexivity.
  - intros b p s e s' H. injection H as <- _. reflexivity.
Defined.

(** X5. In a success result [file_name] holds no path separator and is
    the last stretch of the path that was given. *)
Theorem convert_file_file_name
    (E : Env) (path : string) (b : bool) (s s' : fs) (d : dict) :
  convert_file E path b s = (Ret d, s') ->
  dict_get "success" d = Some (PBool true) ->
  exists name dir,
    dict_get "file_name" d = Some (PStr name) /\
    path = dir +:+ name /\
    forall j, String.get j name <> Some "/"%char.
Proof.
  intros H Hok.
  destruct (convert_file_returns E path b s s' d H) as [[msg ->] | [text ->]];
    [discriminate Hok |].
  destruct (basename_is_tail path) as [dir Hdir].
  exists (PyPath.basename path), dir.
  split; [reflexivity |]. split; [exact Hdir |].
  intros j. apply basename_no_separator.
Qed.

Lemma convert_file_file_name_witness :
  exists name dir,
    dict_get "file_name" (success_of_file Samples.env_ok "docs/Report.PDF" "# hi")
      = Some (PStr name) /\
    "docs/Report.PDF" = dir +:+ name /\
    forall j, String.get j name <> Some "/"%char.
Proof.
  apply (convert_file_file_name Samples.env_ok "docs/Report.PDF" false
           Samples.fs_doc Samples.fs_doc).
  - vm_compute. reflexivity.
  - reflexivity.
Defined.



(** ** More on [convert_bytes] *)

(** Once the temporary file is written, what is left of [convert_bytes]
    is the guarded conversion under the handler. *)
Lemma convert_bytes_after_write
    (E : Env) (lib : MarkItDownLib) (content : list Byte.byte)
    (ext : string) (b : bool) (s s1 : fs) (f : string) :
  import_markitdown E = Ret lib ->
  NamedTemporaryFile E (normalize_extension ext) s = (Ret f, s1) ->
  os_write_fault E f content = None ->
  convert_bytes E content ext b s
    = try_except_Exception
        (convert_temp E lib (normalize_extension ext) b f)
        (bytes_handler (normalize_extension ext))
        (<[f := content]> s1).
Proof.
  intros Himp Hnew Hw.
  rewrite (convert_bytes_unfold E lib content ext b s Himp).
  unfold try_except_Exception at 1 2.
  rewrite (bind_Ret _ _ s (<[f := content]> s1) f); [reflexivity |].
  rewrite (bind_Ret _ _ s s1 f Hnew).
  unfold bind, file_write. now rewrite Hw.
Qed.

(** X7. The temporary file is a new one, and once the buffer is written
    to it, it is gone when [convert_bytes] is left, whatever the
    converter did: returned, raised an [Exception], or raised anything
    else. *)
Theorem convert_bytes_removes_temp_file
    (E : Env) (lib : MarkItDownLib) (content : list Byte.byte)
    (ext : string) (b : bool) (s s1 : fs) (f : string) :
  import_markitdown E = Ret lib ->
  NamedTemporaryFile E (normalize_extension ext) s = (Ret f, s1) ->
  os_write_fault E f content = None ->
  s !! f = None /\
  snd (convert_bytes E content ext b s) !! f = None.
Proof.
  intros Himp Hnew Hw. split.
  - now destruct (mkstemp_inner_spec E _ _ _ _ _ Hnew).
  - rewrite (convert_bytes_after_write E lib content ext b s s1 f Himp Hnew Hw).
    unfold try_except_Exception.
    pose proof (convert_temp_removes E lib (normalize_extension ext) b f
                  (<[f := content]> s1)) as H.
    destruct (convert_temp _ _ _ _ _ _) as [[d|e] s3]; simpl in H |- *.
    + exact H.
    + destruct (isinstance_Exception e); exact H.
Qed.

Lemma convert_bytes_removes_temp_file_witness :
  Samples.fs_doc !! "/tmp/tmpabcd1234.pdf" = None /\
  snd (convert_bytes Samples.env_interrupted Samples.hello "pdf" false
         Samples.fs_doc) !! "/tmp/tmpabcd1234.pdf" = None.
Proof.
  apply (convert_bytes_removes_temp_file Samples.env_interrupted
           (Samples.lib_raising KeyboardInterrupt) Samples.hello "pdf" false
           Samples.fs_doc (<["/tmp/tmpabcd1234.pdf" := []]> Samples.fs_doc)).
  - reflexivity.
  - reflexivity.
  - reflexivity.
Defined.

(** X8. With a library that only reads and a file system that accepts
    the write, [convert_bytes] leaves the file system exactly as it found
    it, on every exit path: no temporary file stays, no other file is
    touched. *)
Theorem convert_bytes_keeps_files
    (E : Env) (content : list Byte.byte) (ext : string) (b : bool) (s : fs) :
  (forall lib, import_markitdown E = Ret lib -> read_only lib) ->
  (forall f, os_write_fault E f content = None) ->
  snd (convert_bytes E content ext b s) = s.
Proof.
  intros Hro Hw.
  destruct (import_markitdown E) as [lib|e] eqn:Himp.
  - apply (convert_bytes_files_unchanged E lib); auto.
  - now rewrite (convert_bytes_import_raises E e content ext b s Himp).
Qed.

Lemma convert_bytes_keeps_files_witness :
  snd (convert_bytes Cases.env_const Samples.hello "docx" false Samples.fs_doc)
    = Samples.fs_doc.
Proof.
  apply (convert_bytes_keeps_files Cases.env_const Samples.hello "docx" false
           Samples.fs_doc).
  - intros lib H. injection H as <-. split; reflexivity.
  - reflexivity.
Defined.

(** X9. When the converter returns [text] for the temporary file, which
    holds exactly the buffer, and leaves that file in place,
    [convert_bytes] returns the success result with [text] and the
    normalized extension, and the temporary file is unlinked. *)
Theorem convert_bytes_success
    (E : Env) (lib : MarkItDownLib) (content : list Byte.byte)
    (ext : string) (b : bool) (s s1 s3 : fs) (f text : string) :
  import_markitdown E = Ret lib ->
  NamedTemporaryFile E (normalize_extension ext) s = (Ret f, s1) ->
  os_write_fault E f content = None ->
  converter_call lib b f (<[f := content]> s1) = (Ret text, s3) ->
  is_Some (s3 !! f) ->
  (<[f := content]> s1) !! f = Some content /\
  convert_bytes E content ext b s
    = (Ret (success_of_bytes (normalize_extension ext) text), delete f s3).
Proof.
  intros Himp Hnew Hw Hcall Hstill. split; [apply lookup_insert_eq |].
  rewrite (convert_bytes_after_write E lib content ext b s s1 f Himp Hnew Hw).
  unfold try_except_Exception, convert_temp, try_finally.
  rewrite (bind_Ret _ _ _ s3 text Hcall).
  unfold ret. now rewrite (os_unlink_present E f s3 Hstill).
Qed.

Lemma convert_bytes_success_witness :
  (<["/tmp/tmpabcd1234.pdf" := Samples.hello]>
     (<["/tmp/tmpabcd1234.pdf" := []]> Samples.fs_doc))
    !! "/tmp/tmpabcd1234.pdf" = Some Samples.hello /\
  convert_bytes Samples.env_ok Samples.hello "pdf" false Samples.fs_doc
    = (Ret (success_of_bytes ".pdf" "# hi"),
       delete "/tmp/tmpabcd1234.pdf"
         (<["/tmp/tmpabcd1234.pdf" := Samples.hello]>
            (<["/tmp/tmpabcd1234.pdf" := []]> Samples.fs_doc))).
Proof.
  apply (convert_bytes_success Samples.env_ok Samples.lib_ok Samples.hello
           "pdf" false Samples.fs_doc
           (<["/tmp/tmpabcd1234.pdf" := []]> Samples.fs_doc)
           (<["/tmp/tmpabcd1234.pdf" := Samples.hello]>
              (<["/tmp/tmpabcd1234.pdf" := []]> Samples.fs_doc))
           "/tmp/tmpabcd1234.pdf" "# hi").
  - reflexivity.
  - reflexivity.
  - reflexivity.
  - vm_compute. reflexivity.
  - vm_compute. eauto.
Defined.

(** X10. When the converter raises for the temporary file and leaves it
    in place, the file is unlinked first; then an instance of [Exception]
    becomes the failure result carrying [str(e)] and the normalized
    extension, and any other exception is raised to the caller. *)
Theorem convert_bytes_converter_raises
    (E : Env) (lib : MarkItDownLib) (content : list Byte.byte)
    (ext : string) (b : bool) (s s1 s3 : fs) (f : string) (e : exn) :
  import_markitdown E = Ret lib ->
  NamedTemporaryFile E (normalize_extension ext) s = (Ret f, s1) ->
  os_write_fault E f content = None ->
  converter_call lib b f (<[f := content]> s1) = (Raise e, s3) ->
  is_Some (s3 !! f) ->
  convert_bytes E content ext b s
    = (if isinstance_Exception e
       then Ret (failure_of_bytes (normalize_extension ext) (str_exn e))
       else Raise e,
       delete f s3).
Proof.
  intros Himp Hnew Hw Hcall Hstill.
  rewrite (convert_bytes_after_write E lib content ext b s s1 f Himp Hnew Hw).
  unfold try_except_Exception, convert_temp, try_finally.
  rewrite (bind_Raise _ _ _ s3 e Hcall).
  rewrite (os_unlink_present E f s3 Hstill).
  destruct (isinstance_Exception e); reflexivity.
Qed.

Lemma convert_bytes_converter_raises_witness :
  convert_bytes Samples.env_interrupted Samples.hello ".pdf" true Samples.fs_doc
    = (Raise KeyboardInterrupt,
       delete "/tmp/tmpabcd1234.pdf"
         (<["/tmp/tmpabcd1234.pdf" := Samples.hello]>
            (<["/tmp/tmpabcd1234.pdf" := []]> Samples.fs_doc))).
Proof.
  apply (convert_bytes_converter_raises Samples.env_interrupted
           (Samples.lib_raising KeyboardInterrupt) Samples.hello
           ".pdf" true Samples.fs_doc
           (<["/tmp/tmpabcd1234.pdf" := []]> Samples.fs_doc)
           (<["/tmp/tmpabcd1234.pdf" := Samples.hello]>
              (<["/tmp/tmpabcd1234.pdf" := []]> Samples.fs_doc))
           "/tmp/tmpabcd1234.pdf" KeyboardInterrupt).
  - reflexivity.
  - reflexivity.
  - reflexivity.
  - reflexivity.
  - vm_compute. eauto.
Defined.

(** X11. When the temporary file is no longer there after the converter
    ran, the [FileNotFoundError] of [os.unlink] in the [finally] replaces
    whatever the conversion produced: [convert_bytes] returns the failure
    result of the unlink error, whose message ends in the [repr] of the
    temporary path, even if the converter had returned markdown, and even
    if it had raised [KeyboardInterrupt]. *)
Theorem convert_bytes_unlink_error
    (E : Env) (lib : MarkItDownLib) (content : list Byte.byte)
    (ext : string) (b : bool) (s s1 s3 : fs) (f : string) (r : res string) :
  import_markitdown E = Ret lib ->
  NamedTemporaryFile E (normalize_extension ext) s = (Ret f, s1) ->
  os_write_fault E f content = None ->
  converter_call lib b f (<[f := content]> s1) = (r, s3) ->
  s3 !! f = None ->
  convert_bytes E content ext b s
    = (Ret (failure_of_bytes (normalize_extension ext)
              ("[Errno 2] No such file or directory: " +:+ py_repr E f)),
       s3).
Proof.
  intros Himp Hnew Hw Hcall Hgone.
  rewrite (convert_bytes_after_write E lib content ext b s s1 f Himp Hnew Hw).
  unfold try_except_Exception, convert_temp, try_finally, bind.
  rewrite Hcall. unfold os_unlink.
  destruct r as [text|e]; unfold ret; rewrite Hgone; reflexivity.
Qed.

Lemma convert_bytes_unlink_error_witness :
  convert_bytes Cases.env_deleting Samples.hello "pdf" false Samples.fs_doc
    = (Ret (failure_of_bytes ".pdf"
              "[Errno 2] No such file or directory: '/tmp/tmpabcd1234.pdf'"),
       delete "/tmp/tmpabcd1234.pdf"
         (<["/tmp/tmpabcd1234.pdf" := Samples.hello]>
            (<["/tmp/tmpabcd1234.pdf" := []]> Samples.fs_doc))).
Proof.
  apply (convert_bytes_unlink_error Cases.env_deleting Cases.lib_deleting
           Samples.hello "pdf" false Samples.fs_doc
           (<["/tmp/tmpabcd1234.pdf" := []]> Samples.fs_doc)
           (delete "/tmp/tmpabcd1234.pdf"
              (<["/tmp/tmpabcd1234.pdf" := Samples.hello]>
                 (<["/tmp/tmpabcd1234.pdf" := []]> Samples.fs_doc)))
           "/tmp/tmpabcd1234.pdf" (Ret "# gone")).
  - reflexivity.
  - reflexivity.
  - reflexivity.
  - reflexivity.
  - vm_compute. reflexivity.
Defined.

(** X12. When no temporary file can be created, nothing has been written
    and the converter is not reached: an [Exception] of the creation
    becomes the failure result and the file system is as before; any
    other exception is raised. *)
Theorem convert_bytes_creation_error
    (E : Env) (lib : MarkItDownLib) (content : list Byte.byte)
    (ext : string) (b : bool) (s s1 : fs) (e : exn) :
  import_markitdown E = Ret lib ->
  NamedTemporaryFile E (normalize_extension ext) s = (Raise e, s1) ->
  convert_bytes E content ext b s
    = (if isinstance_Exception e
       then Ret (failure_of_bytes (normalize_extension ext) (str_exn e))
       else Raise e,
       s).
Proof.
  intros Himp Hnew.
  pose proof (mkstemp_inner_spec E _ _ _ _ _ Hnew) as Hs. simpl in Hs. subst s1.
  rewrite (convert_bytes_unfold E lib content ext b s Himp).
  unfold try_except_Exception.
  rewrite (bind_Raise _ _ s s e); [| now rewrite (bind_Raise _ _ s s e Hnew)].
  destruct (isinstance_Exception e); reflexivity.
Qed.

Lemma convert_bytes_creation_error_witness :
  convert_bytes Cases.env_no_names Samples.hello "pdf" false Samples.fs_doc
    = (Ret (failure_of_bytes ".pdf"
              "[Errno 17] No usable temporary file name found"),
       Samples.fs_doc).
Proof.
  apply (convert_bytes_creation_error Cases.env_no_names Samples.lib_ok
           Samples.hello "pdf" false Samples.fs_doc Samples.fs_doc
           (PyException "FileExistsError"
              "[Errno 17] No usable temporary file name found")).
  - reflexivity.
  - reflexivity.
Defined.

(** X13. Every result [convert_bytes] returns has exactly the keys
    [success], [error], [markdown] and [file_extension]; the extension it
    reports starts with a dot, and the name of the temporary file is not
    among its fields. *)
Theorem convert_bytes_result_shape
    (E : Env) (content : list Byte.byte) (ext : string) (b : bool)
    (s s' : fs) (d : dict) :
  convert_bytes E content ext b s = (Ret d, s') ->
  dict_keys d = ["success"; "error"; "markdown"; "file_extension"] /\
  dict_get "file_extension" d = Some (PStr (normalize_extension ext)) /\
  PyStr.startswith "." (normalize_extension ext) = true /\
  dict_get "file_path" d = None.
Proof.
  intros H.
  destruct (convert_bytes_returns E content ext b s s' d H)
    as [[msg ->] | [text ->]];
    (split; [reflexivity |]; split; [reflexivity |];
     split; [apply normalize_extension_dotted | reflexivity]).
Qed.

Lemma convert_bytes_result_shape_witness :
  dict_keys (success_of_bytes ".pdf" "# hi")
    = ["success"; "error"; "markdown"; "file_extension"] /\
  dict_get "file_extension" (success_of_bytes ".pdf" "# hi")
    = Some (PStr (normalize_extension "pdf")) /\
  PyStr.startswith "." (normalize_extension "pdf") = true /\
  dict_get "file_path" (success_of_bytes ".pdf" "# hi") = None.
Proof.
  apply (convert_bytes_result_shape Samples.env_ok Samples.hello "pdf" false
           Samples.fs_doc Samples.fs_doc).
  vm_compute. reflexivity.
Defined.

(** X14. Normalizing the extension is idempotent and [convert_bytes]
    depends on the extension through its normal form only: every
    extension behaves as its normalized form does. *)
Theorem convert_bytes_normal_form
    (E : Env) (content : list Byte.byte) (ext : string) (b : bool) (s : fs) :
  normalize_extension (normalize_extension ext) = normalize_extension ext /\
  convert_bytes E content ext b s
    = convert_bytes E content (normalize_extension ext) b s.
Proof.
  split; [apply normalize_extension_idempotent |].
  unfold convert_bytes. now rewrite normalize_extension_idempotent.
Qed.

(** ** More on the command line *)

(** X15. With [--check], whatever else is on the command line, the
    script prints the installation report and exits: status 0 and
    [{"installed": true}] when the import works, status 1 and
    [{"installed": false, "error": ...}] when it raises [ImportError];
    nothing goes to the error stream, no file is touched, and no
    conversion is attempted even when a file path is given. *)
Theorem check_reports_installation (E : Env) (args : Namespace) (w : World) :
  args_check args = true ->
  (forall lib, import_markitdown E = Ret lib ->
     run E args w
       = (0, {| files := files w;
                stdout := stdout w ++ [Json true [("installed", PBool true)]];
                stderr := stderr w |})) /\
  (forall e, import_markitdown E = Raise e ->
     isinstance_ImportError e = true ->
     run E args w
       = (1, {| files := files w;
                stdout := stdout w ++
                  [Json true [ ("installed", PBool false);
                               ("error", PStr not_installed_message) ]];
                stderr := stderr w |})).
Proof.
  intros Hc. split.
  - intros lib Himp. unfold run, main, check_markitdown_installed.
    now rewrite Hc, Himp.
  - intros e Himp Hie. unfold run, main, check_markitdown_installed.
    now rewrite Hc, Himp, Hie.
Qed.

Lemma check_reports_installation_witness :
  run Samples.env_ok (Samples.cli (Some "docs/Report.PDF") None false true)
      Samples.world_doc
    = (0, {| files := Samples.fs_doc;
             stdout := [Json true [("installed", PBool true)]];
             stderr := [] |}).
Proof.
  exact (proj1 (check_reports_installation Samples.env_ok
                  (Samples.cli (Some "docs/Report.PDF") None false true)
                  Samples.world_doc eq_refl)
           Samples.lib_ok eq_refl).
Defined.

(** An import error that is not an [ImportError] leaves [main] at the
    first probe, with nothing done. *)
Lemma main_import_crash (E : Env) (args : Namespace) (w : World) (e : exn) :
  import_markitdown E = Raise e ->
  isinstance_ImportError e = false ->
  args_check args = true \/ given (args_file_path args) = true ->
  main E args w = (Raise e, w).
Proof.
  intros Himp Hie Hreach. unfold main, check_markitdown_installed.
  rewrite Himp, Hie.
  destruct (args_check args); [reflexivity |].
  destruct Hreach as [Hc | Hp]; [discriminate Hc |].
  now rewrite Hp.
Qed.

(** X16. [check_markitdown_installed] catches [ImportError] only.  When
    importing the package raises anything else, the probe does not
    answer: with [--check] or with a file path, [main] is left by that
    exception before anything is printed or touched. *)
Theorem import_crash_escapes (E : Env) (args : Namespace) (w : World) (e : exn) :
  import_markitdown E = Raise e ->
  isinstance_ImportError e = false ->
  args_check args = true \/ given (args_file_path args) = true ->
  main E args w = (Raise e, w) /\
  forall S (s : S), check_markitdown_installed E s = (Raise e, s).
Proof.
  intros Himp Hie Hreach. split.
  - now apply main_import_crash.
  - intros S s. unfold check_markitdown_installed. now rewrite Himp, Hie.
Qed.

Lemma import_crash_escapes_witness :
  main Cases.env_broken (Samples.cli None None true true) Samples.world_doc
    = (Raise Cases.broken_install, Samples.world_doc) /\
  forall S (s : S),
    check_markitdown_installed Cases.env_broken s
      = (Raise Cases.broken_install, s).
Proof.
  apply (import_crash_escapes Cases.env_broken
           (Samples.cli None None true true) Samples.world_doc
           Cases.broken_install).
  - reflexivity.
  - reflexivity.
  - left. reflexivity.
Defined.

Example check_zipped_installation :
  isinstance_ImportError Cases.zip_error = true /\
  run Cases.env_zipped (Samples.cli None None false true) Samples.world_doc
    = (1, {| files := Samples.fs_doc;
             stdout := [Json true [ ("installed", PBool false);
                                    ("error", PStr not_installed_message) ]];
             stderr := [] |}).
Proof. split; reflexivity. Qed.

(** X17. With the library missing, a conversion request ends with
    status 1 in both output modes and converts nothing: the file system
    is untouched; in plain mode the line
    ["Error: markitdown not installed. Run: pip install markitdown"] goes
    to the error stream and nothing to standard output; in JSON mode the
    three-key error object goes to standard output and nothing to the
    error stream. *)
Theorem run_missing_dependency (E : Env) (args : Namespace) (w : World)
    (p : string) (e : exn) :
  args_check args = false ->
  args_file_path args = Some p ->
  PyStr.is_empty p = false ->
  import_markitdown E = Raise e ->
  isinstance_ImportError e = true ->
  run E args w
    = (1, if args_json args then
            {| files := files w;
               stdout := stdout w ++
                 [Json true [ ("success", PBool false);
                              ("error", PStr not_installed_message);
                              ("markdown", PNone) ]];
               stderr := stderr w |}
          else
            {| files := files w; stdout := stdout w;
               stderr := stderr w ++
                 ["Error: markitdown not installed. Run: pip install markitdown"] |}).
Proof.
  intros Hc Hp Hne Himp Hie. unfold run.
  now rewrite (main_missing_dependency E args w p e Hc Hp Hne Himp Hie).
Qed.

Lemma run_missing_dependency_witness :
  run Samples.env_missing (Samples.cli (Some "docs/Report.PDF") None false false)
      Samples.world_doc
    = (1, {| files := Samples.fs_doc; stdout := [];
             stderr := ["Error: markitdown not installed. Run: pip install markitdown"] |}).
Proof.
  apply (run_missing_dependency Samples.env_missing
           (Samples.cli (Some "docs/Report.PDF") None false false)
           Samples.world_doc "docs/Report.PDF" Samples.no_module);
    reflexivity.
Defined.

(** X18. In plain mode a failure result ends the run with status 1: the
    line ["Error: "] followed by the result's error goes to the error
    stream, nothing is printed to standard output, and the [--output]
    file, if one was named, is neither created nor changed. *)
Theorem run_plain_failure (E : Env) (lib : MarkItDownLib) (args : Namespace)
    (w : World) (p : string) (d : dict) (s' : fs) :
  args_check args = false ->
  args_file_path args = Some p ->
  PyStr.is_empty p = false ->
  import_markitdown E = Ret lib ->
  args_json args = false ->
  convert_file E p (args_enable_plugins args) (files w) = (Ret d, s') ->
  dict_get "success" d = Some (PBool false) ->
  exists msg,
    dict_get "error" d = Some (PStr msg) /\
    run E args w
      = (1, {| files := s'; stdout := stdout w;
               stderr := stderr w ++ ["Error: " +:+ msg] |}).
Proof.
  intros Hc Hp Hne Himp Hj Hconv Hfail.
  destruct (convert_file_returns E p _ _ _ _ Hconv) as [[msg Hd] | [text Hd]].
  - exists msg. split; [now rewrite Hd |]. unfold run.
    now rewrite (main_plain_failure E lib args w p Hc Hp Hne Himp d s' Hconv
                   msg Hj Hd).
  - rewrite Hd in Hfail. discriminate Hfail.
Qed.

Lemma run_plain_failure_witness :
  exists msg,
    dict_get "error" (failure_of_file "nope.pdf" "File not found: nope.pdf")
      = Some (PStr msg) /\
    run Samples.env_ok (Samples.cli (Some "nope.pdf") (Some "out.md") false false)
        Cases.world_out
      = (1, {| files := Cases.fs_out; stdout := [];
               stderr := [] ++ ["Error: " +:+ msg] |}).
Proof.
  apply (run_plain_failure Samples.env_ok Samples.lib_ok
           (Samples.cli (Some "nope.pdf") (Some "out.md") false false)
           Cases.world_out "nope.pdf"
           (failure_of_file "nope.pdf" "File not found: nope.pdf")
           Cases.fs_out).
  - reflexivity.
  - reflexivity.
  - reflexivity.
  - reflexivity.
  - reflexivity.
  - vm_compute. reflexivity.
  - reflexivity.
Defined.

(** X19. In plain mode without a usable [--output] (absent, or the empty
    string) a success result ends the run with status 0: the markdown is
    printed to standard output, nothing goes to the error stream, and
    [main] writes no file. *)
Theorem run_plain_success (E : Env) (lib : MarkItDownLib) (args : Namespace)
    (w : World) (p : string) (d : dict) (s' : fs) :
  args_check args = false ->
  args_file_path args = Some p ->
  PyStr.is_empty p = false ->
  import_markitdown E = Ret lib ->
  args_json args = false ->
  given (args_output args) = false ->
  convert_file E p (args_enable_plugins args) (files w) = (Ret d, s') ->
  dict_get "success" d = Some (PBool true) ->
  exists text,
    dict_get "markdown" d = Some (PStr text) /\
    run E args w
      = (0, {| files := s'; stdout := stdout w ++ [Text text];
               stderr := stderr w |}).
Proof.
  intros Hc Hp Hne Himp Hj Ho Hconv Hok.
  destruct (convert_file_returns E p _ _ _ _ Hconv) as [[msg Hd] | [text Hd]].
  - rewrite Hd in Hok. discriminate Hok.
  - exists text. split; [now rewrite Hd |]. unfold run.
    now rewrite (main_plain_success E lib args w p Hc Hp Hne Himp d s' Hconv
                   text Hj Ho Hd).
Qed.

Lemma run_plain_success_witness :
  exists text,
    dict_get "markdown" (success_of_file Samples.env_ok "docs/Report.PDF" "# hi")
      = Some (PStr text) /\
    run Samples.env_ok (Samples.cli (Some "docs/Report.PDF") (Some "") false false)
        Samples.world_doc
      = (0, {| files := Samples.fs_doc; stdout := [] ++ [Text text];
               stderr := [] |}).
Proof.
  apply (run_plain_success Samples.env_ok Samples.lib_ok
           (Samples.cli (Some "docs/Report.PDF") (Some "") false false)
           Samples.world_doc "docs/Report.PDF"
           (success_of_file Samples.env_ok "docs/Report.PDF" "# hi") Samples.fs_doc).
  - reflexivity.
  - reflexivity.
  - reflexivity.
  - reflexivity.
  - reflexivity.
  - reflexivity.
  - vm_compute. reflexivity.
  - reflexivity.
Defined.

(** X20. In plain mode with [--output o], a success result is written to
    [o]: afterwards [o] holds exactly the bytes of the markdown, so that
    reading it back gives the markdown; the confirmation line, and not the
    markdown, is printed; the status is 0. *)
Theorem run_output_written (E : Env) (lib : MarkItDownLib) (args : Namespace)
    (w : World) (p o : string) (d : dict) (s' : fs) :
  args_check args = false ->
  args_file_path args = Some p ->
  PyStr.is_empty p = false ->
  import_markitdown E = Ret lib ->
  args_json args = false ->
  args_output args = Some o ->
  PyStr.is_empty o = false ->
  convert_file E p (args_enable_plugins args) (files w) = (Ret d, s') ->
  dict_get "success" d = Some (PBool true) ->
  open_w_fault E o = None ->
  (forall bytes, os_write_fault E o bytes = None) ->
  exists text,
    dict_get "markdown" d = Some (PStr text) /\
    run E args w
      = (0, {| files := <[o := list_byte_of_string text]> s';
               stdout := stdout w ++ [Text ("Converted successfully: " +:+ o)];
               stderr := stderr w |}) /\
    string_of_list_byte <$> (files (snd (run E args w)) !! o) = Some text.
Proof.
  intros Hc Hp Hne Himp Hj Ho Hone Hconv Hok Hopen Hwrite.
  destruct (convert_file_returns E p _ _ _ _ Hconv) as [[msg Hd] | [text Hd]].
  - rewrite Hd in Hok. discriminate Hok.
  - exists text. split; [now rewrite Hd |].
    assert (Hrun : run E args w
      = (0, {| files := <[o := list_byte_of_string text]> s';
               stdout := stdout w ++ [Text ("Converted successfully: " +:+ o)];
               stderr := stderr w |})).
    { unfold run.
      now rewrite (main_plain_output_written E lib args w p Hc Hp Hne Himp d s'
                     Hconv text o Hj Ho Hone Hd Hopen (Hwrite _)). }
    split; [exact Hrun |].
    rewrite Hrun. simpl. rewrite lookup_insert_eq. simpl.
    now rewrite string_of_list_byte_of_string.
Qed.

Lemma run_output_written_witness :
  exists text,
    dict_get "markdown" (success_of_file Samples.env_ok "docs/Report.PDF" "# hi")
      = Some (PStr text) /\
    run Samples.env_ok
        (Samples.cli (Some "docs/Report.PDF") (Some "out.md") false false)
        Cases.world_out
      = (0, {| files := <["out.md" := list_byte_of_string text]> Cases.fs_out;
               stdout := [] ++ [Text ("Converted successfully: " +:+ "out.md")];
               stderr := [] |}) /\
    string_of_list_byte <$>
      (files (snd (run Samples.env_ok
                     (Samples.cli (Some "docs/Report.PDF") (Some "out.md")
                        false false)
                     Cases.world_out)) !! "out.md") = Some text.
Proof.
  apply (run_output_written Samples.env_ok Samples.lib_ok
           (Samples.cli (Some "docs/Report.PDF") (Some "out.md") false false)
           Cases.world_out "docs/Report.PDF" "out.md"
           (success_of_file Samples.env_ok "docs/Report.PDF" "# hi") Cases.fs_out).
  - reflexivity.
  - reflexivity.
  - reflexivity.
  - reflexivity.
  - reflexivity.
  - reflexivity.
  - reflexivity.
  - vm_compute. reflexivity.
  - reflexivity.
  - reflexivity.
  - reflexivity.
Defined.

(** X21. When the [--output] file cannot be opened, the error of [open]
    is not handled: although the conversion succeeded, the run ends with
    status 1, neither the markdown nor the confirmation is printed, and
    no file is written. *)
Theorem run_output_open_error (E : Env) (lib : MarkItDownLib)
    (args : Namespace) (w : World) (p o : string) (d : dict) (s' : fs)
    (e : exn) :
  args_check args = false ->
  args_file_path args = Some p ->
  PyStr.is_empty p = false ->
  import_markitdown E = Ret lib ->
  args_json args = false ->
  args_output args = Some o ->
  PyStr.is_empty o = false ->
  convert_file E p (args_enable_plugins args) (files w) = (Ret d, s') ->
  dict_get "success" d = Some (PBool true) ->
  open_w_fault E o = Some e ->
  isinstance_Exception e = true ->
  run E args w
    = (1, {| files := s'; stdout := stdout w; stderr := stderr w |}).
Proof.
  intros Hc Hp Hne Himp Hj Ho Hone Hconv Hok Hopen Hexc.
  destruct (convert_file_returns E p _ _ _ _ Hconv) as [[msg Hd] | [text Hd]].
  - rewrite Hd in Hok. discriminate Hok.
  - unfold run.
    rewrite (main_plain_output_error E lib args w p Hc Hp Hne Himp d s'
               Hconv text o e Hj Ho Hone Hd Hopen).
    destruct e; try discriminate Hexc; reflexivity.
Qed.

Lemma run_output_open_error_witness :
  run Cases.env_denied
      (Samples.cli (Some "docs/Report.PDF") (Some "out.md") false false)
      Cases.world_out
    = (1, {| files := Cases.fs_out; stdout := []; stderr := [] |}).
Proof.
  apply (run_output_open_error Cases.env_denied Samples.lib_ok
           (Samples.cli (Some "docs/Report.PDF") (Some "out.md") false false)
           Cases.world_out "docs/Report.PDF" "out.md"
           (success_of_file Cases.env_denied "docs/Report.PDF" "# hi") Cases.fs_out
           Cases.denied).
  - reflexivity.
  - reflexivity.
  - reflexivity.
  - reflexivity.
  - reflexivity.
  - reflexivity.
  - reflexivity.
  - vm_compute. reflexivity.
  - reflexivity.
  - reflexivity.
  - reflexivity.
Defined.

(** Opening the output file truncates it; a write that then fails leaves
    [main] by its error, with what was written before it in the file. *)
Lemma main_plain_output_write_error (E : Env) (lib : MarkItDownLib)
    (args : Namespace) (w : World) (p o text : string) (s' : fs) (e : exn) :
  args_check args = false ->
  args_file_path args = Some p ->
  PyStr.is_empty p = false ->
  import_markitdown E = Ret lib ->
  args_json args = false ->
  args_output args = Some o ->
  PyStr.is_empty o = false ->
  convert_file E p (args_enable_plugins args) (files w)
    = (Ret (success_of_file E p text), s') ->
  open_w_fault E o = None ->
  os_write_fault E o (list_byte_of_string text) = Some e ->
  main E args w
    = (Raise e,
       {| files :=
            <[o := take (os_write_done E o (list_byte_of_string text))
                        (list_byte_of_string text)]> s';
          stdout := stdout w; stderr := stderr w |}).
Proof.
  intros Hc Hp Hne Himp Hj Ho Hone Hconv Hopen Hwrite.
  rewrite (main_converts E lib args w p Hc Hp Hne Himp).
  unfold bind at 1, lift_fs. rewrite Hconv, Hj.
  unfold bind, dict_item, write_text, lift_fs, file_write, given. simpl.
  rewrite Ho. simpl. rewrite Hone, Hopen, Hwrite. simpl.
  now rewrite insert_insert_eq.
Qed.

Lemma exit_status_Exception (e : exn) :
  isinstance_Exception e = true -> exit_status (Raise e) = 1.
Proof. destruct e; try discriminate; reflexivity. Qed.

(** X22. Opening the [--output] file for writing truncates it before
    anything is written: when the write then fails, the run ends with
    status 1 and the file holds only what had been written before the
    error, a beginning of the markdown's bytes (nothing, when the error
    came at once); its earlier content is gone, and no confirmation is
    printed. *)
Theorem run_output_write_error (E : Env) (lib : MarkItDownLib)
    (args : Namespace) (w : World) (p o text : string) (s' : fs) (e : exn) :
  args_check args = false ->
  args_file_path args = Some p ->
  PyStr.is_empty p = false ->
  import_markitdown E = Ret lib ->
  args_json args = false ->
  args_output args = Some o ->
  PyStr.is_empty o = false ->
  convert_file E p (args_enable_plugins args) (files w)
    = (Ret (success_of_file E p text), s') ->
  open_w_fault E o = None ->
  os_write_fault E o (list_byte_of_string text) = Some e ->
  isinstance_Exception e = true ->
  exists written rest,
    list_byte_of_string text = (written ++ rest)%list /\
    run E args w
      = (1, {| files := <[o := written]> s'; stdout := stdout w;
               stderr := stderr w |}).
Proof.
  intros Hc Hp Hne Himp Hj Ho Hone Hconv Hopen Hwrite Hexc.
  exists (take (os_write_done E o (list_byte_of_string text))
               (list_byte_of_string text)),
         (drop (os_write_done E o (list_byte_of_string text))
               (list_byte_of_string text)).
  split; [now rewrite take_drop |].
  unfold run.
  rewrite (main_plain_output_write_error E lib args w p o text s' e
             Hc Hp Hne Himp Hj Ho Hone Hconv Hopen Hwrite).
  now rewrite (exit_status_Exception e Hexc).
Qed.

Lemma run_output_write_error_witness :
  exists written rest,
    list_byte_of_string "# hi" = (written ++ rest)%list /\
    run Cases.env_quota
        (Samples.cli (Some "docs/Report.PDF") (Some "out.md") false false)
        Cases.world_out
      = (1, {| files := <["out.md" := written]> Cases.fs_out; stdout := [];
               stderr := [] |}).
Proof.
  apply (run_output_write_error Cases.env_quota Samples.lib_ok
           (Samples.cli (Some "docs/Report.PDF") (Some "out.md") false false)
           Cases.world_out "docs/Report.PDF" "out.md" "# hi" Cases.fs_out
           (PyException "OSError" "[Errno 122] Disk quota exceeded")).
  - reflexivity.
  - reflexivity.
  - reflexivity.
  - reflexivity.
  - reflexivity.
  - reflexivity.
  - reflexivity.
  - vm_compute. reflexivity.
  - reflexivity.
  - reflexivity.
  - reflexivity.
Defined.

Example run_output_write_error_quota :
  files (snd (run Cases.env_quota
                (Samples.cli (Some "docs/Report.PDF") (Some "out.md") false false)
                Cases.world_out)) !! "out.md"
    = Some (list_byte_of_string "# ").
Proof. vm_compute. reflexivity. Qed.

(** X23. With [--json] the [--output] option has no effect at all: the
    run is the same, in every environment and from every state, whatever
    [--output] names; in particular nothing is written to it. *)
Theorem json_ignores_output (E : Env) (args : Namespace) (o : option string)
    (w : World) :
  args_json args = true ->
  run E (with_output o args) w = run E args w.
Proof.
  intros Hj. unfold run, main, with_output. cbn [args_check args_file_path
    args_json args_enable_plugins args_output].
  rewrite Hj. reflexivity.
Qed.

Lemma json_ignores_output_witness :
  run Samples.env_ok
      (with_output (Some "out.md")
         (Samples.cli (Some "docs/Report.PDF") None true false))
      Samples.world_doc
    = run Samples.env_ok (Samples.cli (Some "docs/Report.PDF") None true false)
        Samples.world_doc.
Proof.
  apply (json_ignores_output Samples.env_ok
           (Samples.cli (Some "docs/Report.PDF") None true false)
           (Some "out.md") Samples.world_doc).
  reflexivity.
Defined.

(** X24. An empty string given as the file path counts as no path: the
    run ends in [parser.error] with status 2 and the usage message, the
    same as when the argument is left out; the path is never looked up
    and nothing is converted. *)
Theorem run_empty_path (E : Env) (args : Namespace) (w : World) :
  args_check args = false ->
  args_file_path args = Some "" ->
  run E args w
    = (2, {| files := files w; stdout := stdout w;
             stderr := stderr w ++ usage_error_lines E |}) /\
  run E args w
    = run E {| args_file_path := None;
               args_output := args_output args;
               args_json := args_json args;
               args_enable_plugins := args_enable_plugins args;
               args_check := args_check args |} w.
Proof.
  intros Hc Hp. unfold run.
  rewrite (main_without_path E args w Hc) by now rewrite Hp.
  split; [reflexivity |].
  now rewrite (main_without_path E
                 {| args_file_path := None;
                    args_output := args_output args;
                    args_json := args_json args;
                    args_enable_plugins := args_enable_plugins args;
                    args_check := args_check args |} w Hc eq_refl).
Qed.

Lemma run_empty_path_witness :
  run Samples.env_ok (Samples.cli (Some "") None true false) Samples.world_doc
    = (2, {| files := Samples.fs_doc; stdout := [];
             stderr := [] ++ usage_error_lines Samples.env_ok |}) /\
  run Samples.env_ok (Samples.cli (Some "") None true false) Samples.world_doc
    = run Samples.env_ok (Samples.cli None None true false) Samples.world_doc.
Proof.
  apply (run_empty_path Samples.env_ok (Samples.cli (Some "") None true false)
           Samples.world_doc); reflexivity.
Defined.

(** ** Where only instances of [Exception] are raised *)

Lemma mkstemp_inner_raises (E : Env) (names : list string) (suffix : string)
    (s s' : fs) (e : exn) :
  (forall f e, os_open_fault E f = Some e -> isinstance_Exception e = true) ->
  mkstemp_inner E names suffix s = (Raise e, s') ->
  isinstance_Exception e = true.
Proof.
  intros Hopen. induction names as [| n rest IH]; simpl; intros H.
  - inversion H; subst. reflexivity.
  - destruct (s !! (tempdir E +:+ "/tmp" +:+ n +:+ suffix)); [now apply IH |].
    destruct (os_open_fault E _) as [e'|] eqn:Hf; inversion H; subst.
    exact (Hopen _ _ Hf).
Qed.

Lemma convert_temp_raises (E : Env) (lib : MarkItDownLib) (ext : string)
    (b : bool)
    (f : string) (s s' : fs) (e : exn) :
  raises_only_Exception lib ->
  convert_temp E lib ext b f s = (Raise e, s') ->
  isinstance_Exception e = true.
Proof.
  intros Honly. unfold convert_temp, try_finally, bind.
  destruct (converter_call lib b f s) as [[text|e0] s1] eqn:Hcall.
  - unfold ret, os_unlink. destruct (s1 !! f); intros H; inversion H; subst.
    reflexivity.
  - unfold os_unlink. destruct (s1 !! f); intros H; inversion H; subst.
    + exact (Honly _ _ _ _ _ Hcall).
    + reflexivity.
Qed.

(** X25. With the library importable, and where the library and the
    system calls raise instances of [Exception] only, [convert_bytes]
    always returns a result, for every buffer and extension, and the result
    satisfies the invariant: every failure is data. *)
Theorem convert_bytes_always_returns
    (E : Env) (lib : MarkItDownLib) (content : list Byte.byte)
    (ext : string) (b : bool) (s : fs) :
  import_markitdown E = Ret lib ->
  only_Exception_faults E ->
  exists d s', convert_bytes E content ext b s = (Ret d, s')
               /\ result_invariant d = true.
Proof.
  intros Himp (_ & Hlib & Hopen & Hwrite & _).
  pose proof (Hlib lib Himp) as Honly.
  rewrite (convert_bytes_unfold E lib content ext b s Himp).
  unfold try_except_Exception.
  match goal with |- context [bind ?c ?k s] =>
    destruct (bind c k s) as [[d|e] s1] eqn:Hbody end.
  - apply bind_returns in Hbody as (f & s2 & _ & Htemp).
    apply try_finally_returns in Htemp as (s3 & Hconv & _).
    apply bind_returns in Hconv as (text & s4 & _ & Hret).
    inversion Hret; subst. eexists _, _. split; reflexivity.
  - assert (He : isinstance_Exception e = true).
    { unfold bind at 1 in Hbody.
      match type of Hbody with context [bind ?c ?k s] =>
        destruct (bind c k s) as [[f|e1] s2] eqn:Hfile end.
      - exact (convert_temp_raises E lib _ b f s2 s1 e Honly Hbody).
      - inversion Hbody; subst. unfold bind in Hfile.
        destruct (NamedTemporaryFile E (normalize_extension ext) s)
          as [[f|e2] s3] eqn:Hnew.
        + unfold file_write in Hfile.
          destruct (os_write_fault E f content) as [e3|] eqn:Hw;
            inversion Hfile; subst.
          exact (Hwrite _ _ _ Hw).
        + inversion Hfile; subst.
          exact (mkstemp_inner_raises E _ _ _ _ _ Hopen Hnew). }
    rewrite He. eexists _, _. split; reflexivity.
Qed.

Lemma convert_bytes_always_returns_witness :
  exists d s',
    convert_bytes Cases.env_const Samples.hello "pdf" false Samples.fs_doc
      = (Ret d, s')
    /\ result_invariant d = true.
Proof.
  apply (convert_bytes_always_returns Cases.env_const (Cases.lib_const "# text")).
  - reflexivity.
  - repeat split; try discriminate.
    intros lib H. injection H as <-. intros b' p s e s' Hcall.
    discriminate Hcall.
Defined.

(** X26. Where only instances of [Exception] are raised, the exit status
    of the script is 0, 1 or 2 for every command line, and it is 2 exactly
    when neither [--check] nor a non-empty file path is given. *)
Theorem run_status_range (E : Env) (args : Namespace) (w : World) :
  only_Exception_faults E ->
  (fst (run E args w) = 0 \/ fst (run E args w) = 1 \/ fst (run E args w) = 2)
  /\ (fst (run E args w) = 2 <->
      args_check args = false /\ given (args_file_path args) = false).
Proof.
  intros HE. pose proof HE as (Himp & Hlib & _ & Hwrite & Hopenw).
  assert (Hcases :
    (args_check args = false /\ given (args_file_path args) = false
     /\ fst (run E args w) = 2) \/
    ((args_check args = true \/ given (args_file_path args) = true)
     /\ (fst (run E args w) = 0 \/ fst (run E args w) = 1))).
  { destruct (args_check args) eqn:Hc.
    - right. split; [now left |].
      destruct (import_markitdown E) as [lib|e] eqn:Hi.
      + left. unfold run, main, check_markitdown_installed.
        now rewrite Hc, Hi.
      + right. destruct (isinstance_ImportError e) eqn:Hie.
        * unfold run, main, check_markitdown_installed.
          now rewrite Hc, Hi, Hie.
        * unfold run.
          rewrite (main_import_crash E args w e Hi Hie (or_introl Hc)).
          exact (exit_status_Exception e (Himp e eq_refl)).
    - destruct (given (args_file_path args)) eqn:Hg.
      + right. split; [now right |].
        destruct (args_file_path args) as [p|] eqn:Hp; [| discriminate Hg].
        assert (Hne : PyStr.is_empty p = false)
          by (simpl in Hg; now destruct (PyStr.is_empty p)).
        destruct (import_markitdown E) as [lib|e] eqn:Hi.
        * destruct (convert_file_total E lib p
                      (args_enable_plugins args) (files w) Hi (Hlib lib eq_refl))
            as (d & s' & Hconv).
          destruct (args_json args) eqn:Hj.
          -- left. unfold run.
             now rewrite (main_json_converted E lib args w p Hc Hp Hne Hi d s'
                            Hconv Hj).
          -- destruct (convert_file_returns E p _ _ _ _ Hconv)
               as [[msg Hd] | [text Hd]].
             ++ right. unfold run.
                now rewrite (main_plain_failure E lib args w p Hc Hp Hne Hi d s'
                               Hconv msg Hj Hd).
             ++ destruct (given (args_output args)) eqn:Hgo.
                ** destruct (args_output args) as [o|] eqn:Ho;
                     [| discriminate Hgo].
                   assert (Hone : PyStr.is_empty o = false)
                     by (simpl in Hgo; now destruct (PyStr.is_empty o)).
                   destruct (open_w_fault E o) as [e|] eqn:Hopen.
                   { right. unfold run.
                     rewrite (main_plain_output_error E lib args w p Hc Hp Hne
                                Hi d s' Hconv text o e Hj Ho Hone Hd Hopen).
                     exact (exit_status_Exception e (Hopenw o e Hopen)). }
                   destruct (os_write_fault E o (list_byte_of_string text))
                     as [e|] eqn:Hwr.
                   { right. unfold run. subst d.
                     rewrite (main_plain_output_write_error E lib args w p o
                                text s' e Hc Hp Hne Hi Hj Ho Hone Hconv Hopen Hwr).
                     exact (exit_status_Exception e (Hwrite _ _ e Hwr)). }
                   left. unfold run.
                   now rewrite (main_plain_output_written E lib args w p Hc Hp
                                  Hne Hi d s' Hconv text o Hj Ho Hone Hd Hopen Hwr).
                ** left. unfold run.
                   now rewrite (main_plain_success E lib args w p Hc Hp Hne Hi
                                  d s' Hconv text Hj Hgo Hd).
        * right. destruct (isinstance_ImportError e) eqn:Hie.
          -- unfold run.
             now rewrite (main_missing_dependency E args w p e Hc Hp Hne Hi Hie).
          -- unfold run.
             rewrite (main_import_crash E args w e Hi Hie
                        ltac:(right; rewrite Hp; exact Hg)).
             exact (exit_status_Exception e (Himp e eq_refl)).
      + left. split; [reflexivity |]. split; [reflexivity |].
        unfold run. now rewrite (main_without_path E args w Hc Hg). }
  destruct Hcases as [(Hc & Hg & H2) | ([Hc | Hg] & [H | H])];
    rewrite ?H, ?H2; (split; [auto | split; [intros; try discriminate; auto |]]);
    try (intros [Hc' Hg']; congruence); auto.
Qed.

Lemma run_status_range_witness :
  (fst (run Cases.env_const (Samples.cli (Some "docs/Report.PDF") None true false)
          Samples.world_doc) = 0 \/
   fst (run Cases.env_const (Samples.cli (Some "docs/Report.PDF") None true false)
          Samples.world_doc) = 1 \/
   fst (run Cases.env_const (Samples.cli (Some "docs/Report.PDF") None true false)
          Samples.world_doc) = 2)
  /\ (fst (run Cases.env_const
             (Samples.cli (Some "docs/Report.PDF") None true false)
             Samples.world_doc) = 2 <->
      args_check (Samples.cli (Some "docs/Report.PDF") None true false) = false /\
      given (args_file_path
               (Samples.cli (Some "docs/Report.PDF") None true false)) = false).
Proof.
  apply (run_status_range Cases.env_const
           (Samples.cli (Some "docs/Report.PDF") None true false)
           Samples.world_doc).
  repeat split; try discriminate.
  intros lib H. injection H as <-. intros b' p s e s' Hcall.
  discriminate Hcall.
Defined.
